(** * Data transfer between storage connectors

    A shallow embedding of [resolwe/storage/connectors/transfer.py]:
    the retry decorator [retry_on_transfer_error] and the class
    [Transfer] with its methods [pre_processing], [post_processing],
    [transfer_rec] and [transfer].

    Python code that calls connector methods is written in a small
    state-and-exception monad.  The state holds the storage world the
    connectors act on, the Python list objects that are passed around by
    reference, and a chronological log of the connector calls made. *)

From Stdlib Require Import ZArith String List Bool Lia.
From stdpp Require Import base option list gmap strings pretty.

Local Open Scope Z_scope.
Local Open Scope string_scope.

(** ** Exceptions *)

(** The classes that [transfer.py] names, either in [transfer_exceptions]
    or by raising them, and [OtherException] for every other subclass of
    [Exception].  An exception value is tagged with the listed class it is
    an instance of, and carries the text that [str(e)] gives. *)
Inductive exn_class : Type :=
  | DataTransferError
  | RequestsConnectionError
  | ReadTimeout
  | ServiceUnavailable
  | IndexError
  | TypeError
  | UnboundLocalError
  | OtherException (cls : string).

Inductive exn : Type :=
  | Exception (cls : exn_class) (msg : string).

Definition class_of (e : exn) : exn_class :=
  match e with Exception cls _ => cls end.

Definition str (e : exn) : string :=
  match e with Exception _ msg => msg end.

#[global] Instance exn_class_eq_dec : EqDecision exn_class.
Proof. solve_decision. Defined.

#[global] Instance exn_eq_dec : EqDecision exn.
Proof. solve_decision. Defined.

(** [ERROR_MAX_RETRIES = 3] *)
Definition ERROR_MAX_RETRIES : nat := 3.

(** [gcs_exceptions] is [[ServiceUnavailable]] when the Google client
    library can be imported and [[]] otherwise. *)
Definition gcs_exceptions (google_installed : bool) : list exn_class :=
  if google_installed then [ServiceUnavailable] else [].

(** [transfer_exceptions = tuple(gcs_exceptions + [DataTransferError]
    + [RequestsConnectionError, ReadTimeout])] *)
Definition transfer_exceptions (google_installed : bool) : list exn_class :=
  gcs_exceptions google_installed
    ++ [DataTransferError] ++ [RequestsConnectionError; ReadTimeout].

(** [isinstance(err, classes)] *)
Definition isinstance (err : exn) (classes : list exn_class) : bool :=
  bool_decide (class_of err ∈ classes).

(** ** Results and the monad of Python statements *)

Inductive result (A : Type) : Type :=
  | Ok (a : A)
  | Raise (e : exn).
Arguments Ok {A} a.
Arguments Raise {A} e.

Module Py.

Definition M (S A : Type) : Type := S -> result A * S.

Definition ret {S A} (a : A) : M S A := fun s => (Ok a, s).

Definition raise {S A} (e : exn) : M S A := fun s => (Raise e, s).

Definition bind {S A B} (m : M S A) (k : A -> M S B) : M S B :=
  fun s =>
    match m s with
    | (Ok a, s') => k a s'
    | (Raise e, s') => (Raise e, s')
    end.

(** [try: body  except Exception: handler] *)
Definition try_except {S A} (body : M S A) (handler : exn -> M S A) : M S A :=
  fun s =>
    match body s with
    | (Ok a, s') => (Ok a, s')
    | (Raise e, s') => handler e s'
    end.

(** [with suppress(Exception): body] *)
Definition suppress {S} (body : M S unit) : M S unit :=
  try_except body (fun _ => ret tt).

(** [for x in xs: body(x)] over the items [xs] of a list. *)
Fixpoint for_each {S A} (xs : list A) (body : A -> M S unit) : M S unit :=
  match xs with
  | [] => ret tt
  | x :: xs' => bind (body x) (fun _ => for_each xs' body)
  end.

End Py.

Notation "'let*' x := m 'in' k" := (Py.bind m (fun x => k))
  (at level 10, x name, m at level 100, k at level 200).
Notation "'do' m ; k" := (Py.bind m (fun _ => k))
  (at level 10, m at level 100, k at level 200).

(** ** The retry decorator *)

Section Retry.

Context {S A : Type}.
Variable google_installed : bool.

(** The [for _ in range(n)] loop of [retry_on_transfer_error], with
    [n] iterations left and the local variable [connection_err], which
    is unbound ([None]) until an attempt has failed. *)
Fixpoint retry_loop (n : nat) (connection_err : option exn)
    (wrapped : Py.M S A) : Py.M S A :=
  match n with
  | O =>
      match connection_err with
      | Some err => Py.raise err
      | None => Py.raise (Exception UnboundLocalError "connection_err")
      end
  | Datatypes.S n' =>
      fun s =>
        match wrapped s with
        | (Ok a, s') => (Ok a, s')
        | (Raise err, s') =>
            if isinstance err (transfer_exceptions google_installed)
            then retry_loop n' (Some err) wrapped s'
            else (Raise err, s')
        end
  end.

Definition retry_on_transfer_error (wrapped : Py.M S A) : Py.M S A :=
  retry_loop ERROR_MAX_RETRIES None wrapped.

End Retry.

(** ** Connectors, the stream hasher and the state *)

(** The two newline characters of the separator ["\n\n"]. *)
Definition newline2 : string :=
  String (Ascii.ascii_of_nat 10) (String (Ascii.ascii_of_nat 10) EmptyString).

(** [suffix in s], as [s.endswith(suffix)]. *)
Definition endswith (s suffix : string) : bool :=
  let n := String.length s in
  let k := String.length suffix in
  if (k <=? n)%nat
  then bool_decide (String.substring (n - k) k s = suffix)
  else false.

(** Which of the two connectors of a [Transfer] a call goes to. *)
Inductive side : Type :=
  | from_side
  | to_side.

Section Model.

(** The storage world the back ends hold, and [pathlib] paths with the
    constructor [Path(url)] and the operator [/]; [pathlib] is a library
    and stays abstract. *)
Variable W : Type.
Variable path : Type.
Variable Path : string -> path.
Variable truediv : path -> string -> path.

(** Whether [google.api_core] can be imported. *)
Variable google_installed : bool.

(** A URL argument is a [str] or a [Path]: [transfer_rec] receives a
    [str] and hands [Path] objects on. *)
Inductive url : Type :=
  | Str (s : string)
  | PathObj (p : path).

(** A Python value that is [None] or a reference to a list object; the
    list objects themselves live in the state, so that two names can
    denote one list and a hook can change a list in place. *)
Definition pyref : Type := option nat.

(** What connector methods that receive list objects can read and
    change: the storage world and the list objects. *)
Record store : Type := Store {
  store_world : W;
  store_lists : gmap nat (list string)
}.

(** Modelled from the spec: the connector interface of section 4.1
    ([baseconnector.py] is not among the sources), one field per member
    that [transfer.py] uses.  [multipart_chunksize] is [None] when the
    connector has no such attribute.  [get] and [push] run inside the
    thread pool and are part of [run_stages] below. *)
Record BaseStorageConnector : Type := {
  name : string;
  supported_download_hash : list string;
  supported_upload_hash : list string;
  multipart_chunksize : option Z;
  get_hash : url -> string -> W -> result (option string) * W;
  set_hashes : url -> gmap string string -> W -> result unit * W;
  delete : url -> W -> result unit * W;
  get_object_list : url -> store -> result pyref * store;
  before_get : pyref -> url -> store -> result pyref * store;
  before_push : pyref -> url -> store -> result pyref * store;
  after_get : pyref -> url -> store -> result pyref * store;
  after_push : pyref -> url -> store -> result pyref * store
}.

(** Modelled from the spec: the stream hasher of section 4.3
    ([hasher.py] is not among the sources).  It is built with a chunk
    size, which it keeps, and after [compute] gives a digest for every
    hash type. *)
Record StreamHasher : Type := {
  chunk_size : Z;
  hexdigest : string -> string
}.

(** The digests of a hasher that has seen no data, and the class
    attribute [StreamHasher.KNOWN_HASH_TYPES]. *)
Variable initial_hexdigest : string -> string.
Variable KNOWN_HASH_TYPES : list string.

(** [StreamHasher(chunk_size)] *)
Definition new_StreamHasher (chunk_size : Z) : StreamHasher :=
  {| chunk_size := chunk_size; hexdigest := initial_hexdigest |}.

(** The three futures of the thread pool, each with the exception its
    task raised, if any. *)
Record futures : Type := {
  download_task : option exn;
  hash_task : option exn;
  upload_task : option exn
}.

(** The block [with ThreadPoolExecutor(max_workers=3) as executor],
    which submits [from_connector.get(from_url, hash_stream)],
    [hasher.compute(hash_stream, data_stream)] and
    [to_connector.push(data_stream, to_url)] and waits for the three.
    The interleaving of the three threads is not modelled: the block is
    one step that, from the two connectors, the two URLs and the chunk
    size of the hasher, gives the outcome of each future, the digests the
    hasher ends with and the new storage world. *)
Variable run_stages :
  BaseStorageConnector -> BaseStorageConnector -> url -> url -> Z ->
  W -> (futures * (string -> string)) * W.

(** The connector calls that [transfer.py] makes, as they are logged. *)
Inductive event : Type :=
  | Call_get_hash (c : side) (u : url) (hash_type : string)
  | Submit_get (from_url : url)
  | Submit_compute (chunk_size : Z)
  | Submit_push (to_url : url)
  | Call_delete (u : url)
  | Call_set_hashes (u : url) (hashes : gmap string string)
  | Call_get_object_list (u : url)
  | Call_before_get (objects : pyref) (u : url)
  | Call_before_push (objects : pyref) (u : url)
  | Call_after_get (objects : pyref) (u : url)
  | Call_after_push (objects : pyref) (u : url).

Record state : Type := State {
  world : W;
  lists : gmap nat (list string);
  calls : list event
}.

(** A call of a connector method that acts on the storage world. *)
Definition call {A} (ev : event) (f : W -> result A * W) : Py.M state A :=
  fun s =>
    let (r, w) := f (world s) in
    (r, {| world := w; lists := lists s; calls := calls s ++ [ev] |}).

(** A call of a connector method that is given a list object. *)
Definition call_hook {A} (ev : event) (f : store -> result A * store)
    : Py.M state A :=
  fun s =>
    let (r, st) := f (Store (world s) (lists s)) in
    (r, {| world := store_world st; lists := store_lists st;
           calls := calls s ++ [ev] |}).

(** [l[0]] *)
Definition subscript0 (l : list string) : Py.M state string :=
  match l with
  | x :: _ => Py.ret x
  | [] => Py.raise (Exception IndexError "list index out of range")
  end.

(** The items of the list object [objects], as [for entry in objects]
    starts to iterate over them.  Single-object transfer is given two
    paths only and cannot reach the list, so the items are read once.
    Iterating over [None] raises [TypeError]. *)
Definition iter (objects : pyref) : Py.M state (list string) :=
  fun s =>
    match objects with
    | Some l =>
        match lists s !! l with
        | Some items => (Ok items, s)
        | None => (Raise (Exception TypeError "object is not iterable"), s)
        end
    | None => (Raise (Exception TypeError "object is not iterable"), s)
    end.

Record Transfer : Type := {
  from_connector : BaseStorageConnector;
  to_connector : BaseStorageConnector
}.

Definition connector (self : Transfer) (c : side) : BaseStorageConnector :=
  match c with
  | from_side => from_connector self
  | to_side => to_connector self
  end.

Definition is_not_None {A} (x : option A) : bool :=
  match x with Some _ => true | None => false end.

(** [executor.submit] of the three tasks and the end of the [with]
    block. *)
Definition submit_stages (self : Transfer) (from_url to_url : url)
    (hasher : StreamHasher) : Py.M state (futures * StreamHasher) :=
  fun s =>
    let '(fs, digests, w) :=
      run_stages (from_connector self) (to_connector self)
        from_url to_url (chunk_size hasher) (world s) in
    (Ok (fs, {| chunk_size := chunk_size hasher; hexdigest := digests |}),
     {| world := w; lists := lists s;
        calls := calls s ++ [Submit_get from_url;
                             Submit_compute (chunk_size hasher);
                             Submit_push to_url] |}).

(** [[f.exception() for f in futures if f.exception() is not None]] *)
Definition stage_exceptions (fs : futures) : list exn :=
  omap id [download_task fs; hash_task fs; upload_task fs].

(** [any(f.exception() is not None for f in futures)] *)
Definition any_exception (fs : futures) : bool :=
  existsb is_not_None [download_task fs; hash_task fs; upload_task fs].

(** The dictionary [hashes] that [transfer] stores as metadata. *)
Definition computed_hashes (hasher : StreamHasher) : gmap string string :=
  <["_upload_chunk_size" := pretty (chunk_size hasher)]>
    (list_to_map ((fun hash_type => (hash_type, hexdigest hasher hash_type))
                    <$> KNOWN_HASH_TYPES)).

(** Lines 171 to 207 of [transfer]: the thread pool, the check of the
    futures, the verification of the hashes and the metadata. *)
Definition transfer_pipeline (self : Transfer) (from_url to_url : url)
    (hasher : StreamHasher) (download_hash_type upload_hash_type : string)
    : Py.M state unit :=
  let* r := submit_stages self from_url to_url hasher in
  let (fs, hasher) := r : futures * StreamHasher in
  if any_exception fs then
    do Py.suppress
         (call (Call_delete to_url) (delete (to_connector self) to_url));
    let ex := stage_exceptions fs in
    let messages := str <$> ex in
    Py.raise (Exception DataTransferError (String.concat newline2 messages))
  else
    let* from_hash :=
      call (Call_get_hash from_side from_url download_hash_type)
        (get_hash (from_connector self) from_url download_hash_type) in
    let* to_hash :=
      call (Call_get_hash to_side to_url upload_hash_type)
        (get_hash (to_connector self) to_url upload_hash_type) in
    let hasher_from_hash := hexdigest hasher download_hash_type in
    let hasher_to_hash := hexdigest hasher upload_hash_type in
    if negb (bool_decide ((from_hash, to_hash)
                          = (Some hasher_from_hash, Some hasher_to_hash)))
    then
      do Py.suppress
           (call (Call_delete to_url) (delete (to_connector self) to_url));
      Py.raise (Exception DataTransferError "")
    else
      let hashes := computed_hashes hasher in
      call (Call_set_hashes to_url hashes)
        (set_hashes (to_connector self) to_url hashes).

(** Lines 154 to 169 of [transfer], "check if file already exist and has
    the right hash": [true] stands for the early [return]. *)
Definition has_right_hash (self : Transfer) (from_url to_url : url)
    : Py.M state bool :=
  let to_hashes := supported_download_hash (to_connector self) in
  let from_hashes := supported_download_hash (from_connector self) in
  let common_hash := filter (fun e => e ∈ from_hashes) to_hashes in
  match common_hash with
  | hash_type :: _ =>
      let* from_hash :=
        call (Call_get_hash from_side from_url hash_type)
          (get_hash (from_connector self) from_url hash_type) in
      let* to_hash :=
        call (Call_get_hash to_side to_url hash_type)
          (get_hash (to_connector self) to_url hash_type) in
      Py.ret (bool_decide (from_hash = to_hash) && is_not_None from_hash)
  | [] => Py.ret false
  end.

(** The body of [transfer], which the decorator wraps. *)
Definition transfer_wrapped (self : Transfer) (from_url to_url : url)
    : Py.M state unit :=
  let hasher_chunk_size := 8 * 1024 * 1024 in
  let hasher := new_StreamHasher hasher_chunk_size in
  let* download_hash_type :=
    subscript0 (supported_download_hash (from_connector self)) in
  let* upload_hash_type :=
    subscript0 (supported_upload_hash (to_connector self)) in
  let hasher_chunk_size :=
    match multipart_chunksize (to_connector self) with
    | Some size => size
    | None => hasher_chunk_size
    end in
  let* skip := has_right_hash self from_url to_url in
  if skip : bool then Py.ret tt
  else
    transfer_pipeline self from_url to_url hasher
      download_hash_type upload_hash_type.

(** [@retry_on_transfer_error def transfer(self, from_url, to_url)] *)
Definition transfer (self : Transfer) (from_url to_url : url)
    : Py.M state unit :=
  retry_on_transfer_error google_installed
    (transfer_wrapped self from_url to_url).

Definition pre_processing (self : Transfer) (u : url) (objects : pyref)
    : Py.M state pyref :=
  let* objects_to_transfer :=
    call_hook (Call_before_get objects u)
      (before_get (from_connector self) objects u) in
  do call_hook (Call_before_push objects_to_transfer u)
       (before_push (to_connector self) objects_to_transfer u);
  Py.ret objects_to_transfer.

Definition post_processing (self : Transfer) (u : url) (objects : pyref)
    : Py.M state pyref :=
  do call_hook (Call_after_get objects u)
       (after_get (from_connector self) objects u);
  let* objects_stored :=
    call_hook (Call_after_push objects u)
      (after_push (to_connector self) objects u) in
  Py.ret objects_stored.

(** The loop [for entry in objects] of [transfer_rec]. *)
Definition transfer_entries (self : Transfer) (u : path)
    (entries : list string) : Py.M state unit :=
  Py.for_each entries (fun entry =>
    if negb (endswith entry "/")
    then transfer self (PathObj (truediv u entry))
                       (PathObj (truediv u entry))
    else Py.ret tt).

(** Lines 101 and 102 of [transfer_rec]: the objects given, or else the
    list that the source connector gives for the URL. *)
Definition objects_or_listing (self : Transfer) (u : string)
    (objects : pyref) : Py.M state pyref :=
  match objects with
  | None =>
      call_hook (Call_get_object_list (Str u))
        (get_object_list (from_connector self) (Str u))
  | Some _ => Py.ret objects
  end.

Definition transfer_rec (self : Transfer) (u : string) (objects : pyref)
    : Py.M state pyref :=
  let* objects := objects_or_listing self u objects in
  let* objects_to_transfer :=
    Py.try_except (pre_processing self (Str u) objects)
      (fun _ => Py.raise (Exception DataTransferError "")) in
  let u := Path u in
  let* entries := iter objects in
  do transfer_entries self u entries;
  let* objects_stored :=
    Py.try_except (post_processing self (PathObj u) objects_to_transfer)
      (fun _ => Py.raise (Exception DataTransferError "")) in
  Py.ret (if bool_decide (objects_stored = objects)
          then None else objects_stored).

End Model.

Arguments Str {path} s.
Arguments PathObj {path} p.
Arguments Store {W} _ _.
Arguments store_world {W} _.
Arguments store_lists {W} _.
Arguments State {W path} _ _ _.
Arguments world {W path} _.
Arguments lists {W path} _.
Arguments calls {W path} _.
Arguments name {W path} _.
Arguments supported_download_hash {W path} _.
Arguments supported_upload_hash {W path} _.
Arguments multipart_chunksize {W path} _.
Arguments get_hash {W path} _ _ _ _.
Arguments set_hashes {W path} _ _ _ _.
Arguments delete {W path} _ _ _.
Arguments get_object_list {W path} _ _ _.
Arguments before_get {W path} _ _ _ _.
Arguments before_push {W path} _ _ _ _.
Arguments after_get {W path} _ _ _ _.
Arguments after_push {W path} _ _ _ _.
Arguments from_connector {W path} _.
Arguments to_connector {W path} _.
Arguments connector {W path} _ _.
Arguments Call_get_hash {path} _ _ _.
Arguments Submit_get {path} _.
Arguments Submit_compute {path} _.
Arguments Submit_push {path} _.
Arguments Call_delete {path} _.
Arguments Call_set_hashes {path} _ _.
Arguments Call_get_object_list {path} _.
Arguments Call_before_get {path} _ _.
Arguments Call_before_push {path} _ _.
Arguments Call_after_get {path} _ _.
Arguments Call_after_push {path} _ _.
Arguments call {W path A} _ _ _.
Arguments call_hook {W path A} _ _ _.
Arguments iter {W path} _ _.
Arguments subscript0 {W path} _ _.
Arguments submit_stages {W path} _ _ _ _ _ _.
Arguments transfer_pipeline {W path} _ _ _ _ _ _ _ _ _.
Arguments has_right_hash {W path} _ _ _ _.
Arguments transfer_wrapped {W path} _ _ _ _ _ _ _.
Arguments transfer {W path} _ _ _ _ _ _ _ _.
Arguments pre_processing {W path} _ _ _ _.
Arguments post_processing {W path} _ _ _ _.
Arguments transfer_entries {W path} _ _ _ _ _ _ _ _ _.
Arguments objects_or_listing {W path} _ _ _ _.
Arguments transfer_rec {W path} _ _ _ _ _ _ _ _ _ _.

(** ** In-memory connectors

    Two small back ends that keep their objects in finite maps, used to
    run the code above on concrete inputs. *)

Module Memory.

Record backends : Type := Backends {
  (** reads of a stored hash of the source that will still time out *)
  timeouts : nat;
  (** the bytes of each object of the source and of the destination *)
  source : gmap string string;
  dest : gmap string string;
  (** the metadata that [set_hashes] stored at the destination *)
  dest_hashes : gmap string (gmap string string);
  (** whether an upload loses the bytes *)
  truncating : bool
}.

Definition key (u : url string) : string :=
  match u with
  | Str s => s
  | PathObj p => p
  end.

Definition Path (u : string) : string := u.

Definition truediv (p entry : string) : string := p ++ "/" ++ entry.

(** The stored hash of an object is its hash type and its bytes. *)
Definition digest (data hash_type : string) : string :=
  hash_type ++ ":" ++ data.

Definition KNOWN_HASH_TYPES : list string := ["md5"; "crc32c"; "awss3etag"].

Definition hook : Type :=
  pyref -> url string -> store backends -> result pyref * store backends.

(** A hook that leaves the list as it is and returns the same object. *)
Definition same_list : hook := fun objects _ st => (Ok objects, st).

(** A hook that packs the objects: it returns a new list object with
    the one entry [all.zip]. *)
Definition zip_all : hook := fun objects _ st =>
  let l := match objects with Some l => Datatypes.S l | None => O end in
  (Ok (Some l),
   Store (store_world st) (<[l := ["all.zip"]]> (store_lists st))).

(** A hook that packs the objects in place, in the list it was given. *)
Definition zip_in_place : hook := fun objects _ st =>
  match objects with
  | Some l =>
      (Ok objects,
       Store (store_world st) (<[l := ["all.zip"]]> (store_lists st)))
  | None => (Ok objects, st)
  end.

(** A hook that fails. *)
Definition broken : hook := fun _ _ st =>
  (Raise (Exception (OtherException "ValueError") "bad object list"), st).

Definition source_get_hash (u : url string) (hash_type : string) (w : backends)
    : result (option string) * backends :=
  match timeouts w with
  | Datatypes.S n =>
      (Raise (Exception ReadTimeout "read timed out"),
       Backends n (source w) (dest w) (dest_hashes w) (truncating w))
  | O => (Ok ((fun data => digest data hash_type) <$> source w !! key u), w)
  end.

Definition source_connector (before after : hook)
    : BaseStorageConnector backends string := {|
  name := "local";
  supported_download_hash := ["md5"; "crc32c"];
  supported_upload_hash := ["md5"];
  multipart_chunksize := None;
  get_hash := source_get_hash;
  set_hashes := fun _ _ w => (Ok tt, w);
  delete := fun u w =>
    (Ok tt, Backends (timeouts w) (base.delete (key u) (source w)) (dest w)
              (dest_hashes w) (truncating w));
  get_object_list := fun _ st =>
    (Ok (Some O),
     Store (store_world st)
       (<[O := fst <$> map_to_list (source (store_world st))]>
          (store_lists st)));
  before_get := before;
  before_push := same_list;
  after_get := after;
  after_push := same_list
|}.

Definition dest_connector (download_hashes : list string)
    (chunksize : option Z) (before after : hook)
    : BaseStorageConnector backends string := {|
  name := "bucket";
  supported_download_hash := download_hashes;
  supported_upload_hash := ["crc32c"; "md5"];
  multipart_chunksize := chunksize;
  get_hash := fun u hash_type w =>
    (Ok ((fun data => digest data hash_type) <$> dest w !! key u), w);
  set_hashes := fun u hashes w =>
    (Ok tt, Backends (timeouts w) (source w) (dest w)
              (<[key u := hashes]> (dest_hashes w)) (truncating w));
  delete := fun u w =>
    (Ok tt, Backends (timeouts w) (source w) (base.delete (key u) (dest w))
              (base.delete (key u) (dest_hashes w)) (truncating w));
  get_object_list := fun _ st => (Ok None, st);
  before_get := same_list;
  before_push := before;
  after_get := same_list;
  after_push := after
|}.

(** The three stages on the in-memory back ends: the bytes of the source
    object reach the destination (or are lost when it truncates); with no
    source object the download and the upload fail. *)
Definition run_stages (from_c to_c : BaseStorageConnector backends string)
    (from_url to_url : url string) (chunk_size : Z) (w : backends)
    : futures * (string -> string) * backends :=
  match source w !! key from_url with
  | Some data =>
      ({| download_task := None; hash_task := None; upload_task := None |},
       digest data,
       Backends (timeouts w) (source w)
         (<[key to_url := if truncating w then "" else data]> (dest w))
         (dest_hashes w) (truncating w))
  | None =>
      ({| download_task :=
            Some (Exception (OtherException "FileNotFoundError")
                    ("no object " ++ key from_url));
          hash_task := None;
          upload_task := Some (Exception DataTransferError "nothing to push") |},
       digest "", w)
  end.

(** Stages whose download times out while a time-out of the source is
    pending, which uses that time-out up; otherwise as [run_stages]. *)
Definition run_stages_timing_out
    (from_c to_c : BaseStorageConnector backends string)
    (from_url to_url : url string) (chunk_size : Z) (w : backends)
    : futures * (string -> string) * backends :=
  match timeouts w with
  | Datatypes.S n =>
      ({| download_task := Some (Exception ReadTimeout "read timed out");
          hash_task := None;
          upload_task := None |},
       digest "",
       Backends n (source w) (dest w) (dest_hashes w) (truncating w))
  | O => run_stages from_c to_c from_url to_url chunk_size w
  end.

(** Stages whose upload loses the bytes once only: after a run the
    destination does not truncate any more. *)
Definition run_stages_lossy_once
    (from_c to_c : BaseStorageConnector backends string)
    (from_url to_url : url string) (chunk_size : Z) (w : backends)
    : futures * (string -> string) * backends :=
  let '(fs, digests, w') :=
    run_stages from_c to_c from_url to_url chunk_size w in
  (fs, digests,
   Backends (timeouts w') (source w') (dest w') (dest_hashes w') false).

(** [transfer] and its body with these stages. *)
Definition attempt_timing_out :=
  transfer_wrapped (digest "") KNOWN_HASH_TYPES run_stages_timing_out.

Definition transfer_timing_out :=
  transfer true (digest "") KNOWN_HASH_TYPES run_stages_timing_out.

Definition attempt_lossy_once :=
  transfer_wrapped (digest "") KNOWN_HASH_TYPES run_stages_lossy_once.

Definition transfer_lossy_once :=
  transfer true (digest "") KNOWN_HASH_TYPES run_stages_lossy_once.

Definition transfer_wrapped :=
  transfer_wrapped (digest "") KNOWN_HASH_TYPES run_stages.

Definition transfer :=
  transfer true (digest "") KNOWN_HASH_TYPES run_stages.

Definition transfer_rec :=
  transfer_rec Path truediv true (digest "") KNOWN_HASH_TYPES run_stages.

(** A plain pair of connectors that share no download hash type, one
    whose destination declares a multipart chunk size of 5 MiB, and one
    where both sides store MD5 hashes. *)
Definition plain : Transfer backends string := {|
  from_connector := source_connector same_list same_list;
  to_connector := dest_connector ["awss3etag"] None same_list same_list
|}.

Definition multipart : Transfer backends string := {|
  from_connector := source_connector same_list same_list;
  to_connector :=
    dest_connector ["awss3etag"] (Some (5 * 1024 * 1024)) same_list same_list
|}.

Definition with_md5 : Transfer backends string := {|
  from_connector := source_connector same_list same_list;
  to_connector := dest_connector ["awss3etag"; "md5"] None same_list same_list
|}.

(** Connectors whose [before_get] packs the objects, into a new list
    object or in place, and connectors with a failing hook. *)
Definition packing : Transfer backends string := {|
  from_connector := source_connector zip_all same_list;
  to_connector := dest_connector ["awss3etag"] None same_list same_list
|}.

Definition packing_in_place : Transfer backends string := {|
  from_connector := source_connector zip_in_place same_list;
  to_connector := dest_connector ["awss3etag"] None same_list same_list
|}.

Definition broken_before_push : Transfer backends string := {|
  from_connector := source_connector same_list same_list;
  to_connector := dest_connector ["awss3etag"] None broken same_list
|}.

Definition broken_after_push : Transfer backends string := {|
  from_connector := source_connector same_list same_list;
  to_connector := dest_connector ["awss3etag"] None same_list broken
|}.

(** A source with the objects [data/a] and [data/b] and their archive
    [data/all.zip], and an empty destination. *)
Definition objects_ab : gmap string string :=
  <["data/a" := "aaaa"]> (<["data/b" := "bb"]>
    (<["data/all.zip" := "aaaabb"]> ∅)).

Definition initial (timeouts : nat) (truncating : bool)
    : state backends string :=
  {| world := Backends timeouts objects_ab ∅ ∅ truncating;
     lists := <[O := ["a"; "b"; "sub/"]]> ∅;
     calls := [] |}.

Definition data_a : url string := Str "data/a".

Definition data_missing : url string := Str "data/zz".

(** The state in which the destination already holds [data/a]. *)
Definition already_there : state backends string :=
  {| world := Backends 0 objects_ab (<["data/a" := "aaaa"]> ∅) ∅ false;
     lists := ∅;
     calls := [] |}.

(** A destination that declares no hash type at all. *)
Definition bare_connector : BaseStorageConnector backends string := {|
  name := "bare";
  supported_download_hash := [];
  supported_upload_hash := [];
  multipart_chunksize := None;
  get_hash := fun _ _ w => (Ok None, w);
  set_hashes := fun _ _ w => (Ok tt, w);
  delete := fun _ w => (Ok tt, w);
  get_object_list := fun _ st => (Ok None, st);
  before_get := same_list;
  before_push := same_list;
  after_get := same_list;
  after_push := same_list
|}.

Definition to_bare : Transfer backends string := {|
  from_connector := source_connector same_list same_list;
  to_connector := bare_connector
|}.

(** A source that cannot list its objects. *)
Definition unlistable_connector : BaseStorageConnector backends string := {|
  name := "unlistable";
  supported_download_hash := ["md5"; "crc32c"];
  supported_upload_hash := ["md5"];
  multipart_chunksize := None;
  get_hash := source_get_hash;
  set_hashes := fun _ _ w => (Ok tt, w);
  delete := fun _ w => (Ok tt, w);
  get_object_list := fun _ st =>
    (Raise (Exception (OtherException "PermissionError") "cannot list"), st);
  before_get := same_list;
  before_push := same_list;
  after_get := same_list;
  after_push := same_list
|}.

Definition from_unlistable : Transfer backends string := {|
  from_connector := unlistable_connector;
  to_connector := dest_connector ["awss3etag"] None same_list same_list
|}.

(** The connector [c] with metadata that cannot be written: its
    [set_hashes] fails. *)
Definition read_only_metadata (c : BaseStorageConnector backends string)
    : BaseStorageConnector backends string := {|
  name := name c;
  supported_download_hash := supported_download_hash c;
  supported_upload_hash := supported_upload_hash c;
  multipart_chunksize := multipart_chunksize c;
  get_hash := get_hash c;
  set_hashes := fun _ _ w =>
    (Raise (Exception (OtherException "PermissionError")
              "metadata is read-only"), w);
  delete := delete c;
  get_object_list := get_object_list c;
  before_get := before_get c;
  before_push := before_push c;
  after_get := after_get c;
  after_push := after_push c
|}.


Definition to_read_only_metadata : Transfer backends string := {|
  from_connector := source_connector same_list same_list;
  to_connector :=
    read_only_metadata (dest_connector ["awss3etag"] None same_list same_list)
|}.


(** The initial state with another list of objects to transfer. *)
Definition initial_with (entries : list string) : state backends string :=
  {| world := Backends 0 objects_ab ∅ ∅ false;
     lists := <[O := entries]> ∅;
     calls := [] |}.

End Memory.

(** The URLs for which the thread pool was started, and the chunk sizes
    of the hashers that ran, in a log of calls. *)
Definition submitted_get {path} (log : list (event path)) : list (url path) :=
  omap (fun ev => match ev with Submit_get u => Some u | _ => None end) log.

Definition submitted_compute {path} (log : list (event path)) : list Z :=
  omap (fun ev => match ev with Submit_compute c => Some c | _ => None end)
    log.

(** The calls of the hooks before and after the transfer, in a log. *)
Definition hook_calls {path} (log : list (event path)) : list (event path) :=
  List.filter
    (fun ev =>
       match ev with
       | Call_before_get _ _ | Call_before_push _ _
       | Call_after_get _ _ | Call_after_push _ _ => true
       | _ => false
       end) log.

(** Whether a call changes a back end: a submitted stage, [delete] or
    [set_hashes]; [get_hash] and the hooks of [transfer_rec] are not
    counted. *)
Definition is_mutating {path} (ev : event path) : bool :=
  match ev with
  | Submit_get _ | Submit_compute _ | Submit_push _
  | Call_delete _ | Call_set_hashes _ _ => true
  | _ => false
  end.

(** The URLs that [delete] was called for, in a log of calls. *)
Definition deleted {path} (log : list (event path)) : list (url path) :=
  omap (fun ev => match ev with Call_delete u => Some u | _ => None end) log.

(** Whether a call asks the source for the list of its objects. *)
Definition is_listing {path} (ev : event path) : bool :=
  match ev with
  | Call_get_object_list _ => true
  | _ => false
  end.

(** A call of single-object transfer that is about the object it was
    asked to transfer: the source is read at [from_url] and the
    destination is read, written, deleted and given metadata at [to_url]. *)
Definition concerns {path} (from_url to_url : url path) (ev : event path)
    : Prop :=
  match ev with
  | Call_get_hash from_side u _ => u = from_url
  | Call_get_hash to_side u _ => u = to_url
  | Submit_get u => u = from_url
  | Submit_compute _ => True
  | Submit_push u => u = to_url
  | Call_delete u => u = to_url
  | Call_set_hashes u _ => u = to_url
  | _ => False
  end.

(** The calls of at most [n] attempts to transfer one object: they are
    about that object, the thread pool was started at most [n] times and
    [delete] was called at most [n] times. *)
Definition within_attempts {path} (from_url to_url : url path) (n : nat)
    (made : list (event path)) : Prop :=
  Forall (concerns from_url to_url) made /\
  (length (submitted_get made) <= n)%nat /\
  (length (deleted made) <= n)%nat.

(** Whether a result is a failure that the decorator retries. *)
Definition transient_failure {A} (google_installed : bool) (r : result A)
    : bool :=
  match r with
  | Ok _ => false
  | Raise err => isinstance err (transfer_exceptions google_installed)
  end.

(** The state after [k] attempts in a row that all failed with a
    transient error, if the first [k] attempts from [s] do so. *)
Fixpoint after_failures {S A} (google_installed : bool) (wrapped : Py.M S A)
    (k : nat) (s : S) : option S :=
  match k with
  | O => Some s
  | Datatypes.S k' =>
      let (r, s') := wrapped s in
      if transient_failure google_installed r
      then after_failures google_installed wrapped k' s'
      else None
  end.

(** * Properties *)

(** ** The retry loop *)

Section RetryFacts.

Context {S A : Type}.
Variable google_installed : bool.
Variable wrapped : Py.M S A.

Lemma isinstance_DataTransferError msg :
  isinstance (Exception DataTransferError msg)
    (transfer_exceptions google_installed) = true.
Proof.
  unfold isinstance. apply bool_decide_eq_true. simpl.
  unfold transfer_exceptions. rewrite elem_of_app. right. left.
Qed.

Lemma transient_failure_Raise (r : result A) :
  transient_failure google_installed r = true ->
  exists err, r = Raise err /\
    isinstance err (transfer_exceptions google_installed) = true.
Proof. destruct r as [a|err]; simpl; [discriminate | eauto]. Qed.

(** The loop returns what the first attempt that is not a transient
    failure gives, or else what its last attempt gives. *)
Lemma retry_loop_outcome k : forall n c s0 s r s',
  after_failures google_installed wrapped k s0 = Some s ->
  wrapped s = (r, s') ->
  (k < n)%nat ->
  transient_failure google_installed r = false \/ n = Datatypes.S k ->
  retry_loop google_installed n c wrapped s0 = (r, s').
Proof.
  induction k as [|k IH]; intros n c s0 s r s' Hrun Hlast Hlt Hcase.
  - injection Hrun as <-.
    destruct n as [|n]; [lia|]. simpl. rewrite Hlast.
    destruct r as [a|err]; [reflexivity|].
    destruct Hcase as [Hnt | Hn].
    + simpl in Hnt. rewrite Hnt. reflexivity.
    + injection Hn as ->.
      destruct (isinstance err _); reflexivity.
  - simpl in Hrun. destruct (wrapped s0) as [r0 s1] eqn:Hfirst.
    destruct (transient_failure google_installed r0) eqn:Htr; [|discriminate].
    destruct (transient_failure_Raise _ Htr) as (err & -> & Herr).
    destruct n as [|n]; [lia|]. simpl. rewrite Hfirst, Herr.
    apply (IH n (Some err) s1 s r s' Hrun Hlast); [lia|].
    destruct Hcase as [Hnt | Hn]; [left; exact Hnt | right; lia].
Qed.

(** After a first transient failure the remaining iterations run from
    the state that the failed attempt left. *)
Lemma retry_loop_again n c s0 err s1 :
  wrapped s0 = (Raise err, s1) ->
  isinstance err (transfer_exceptions google_installed) = true ->
  retry_loop google_installed (Datatypes.S n) c wrapped s0
  = retry_loop google_installed n (Some err) wrapped s1.
Proof. intros H1 H2. simpl. rewrite H1, H2. reflexivity. Qed.

Lemma after_failures_last k : forall s0 s',
  after_failures google_installed wrapped (Datatypes.S k) s0 = Some s' ->
  exists s err,
    after_failures google_installed wrapped k s0 = Some s /\
    wrapped s = (Raise err, s') /\
    isinstance err (transfer_exceptions google_installed) = true.
Proof.
  induction k as [|k IH]; intros s0 s' H.
  - simpl in H. destruct (wrapped s0) as [r s1] eqn:Hw.
    destruct (transient_failure google_installed r) eqn:Htr; [|discriminate].
    injection H as <-.
    destruct (transient_failure_Raise _ Htr) as (err & -> & Herr).
    exists s0, err. auto.
  - change (after_failures google_installed wrapped
              (Datatypes.S (Datatypes.S k)) s0)
      with (let (r, s1) := wrapped s0 in
            if transient_failure google_installed r
            then after_failures google_installed wrapped (Datatypes.S k) s1
            else None) in H.
    destruct (wrapped s0) as [r s1] eqn:Hw.
    destruct (transient_failure google_installed r) eqn:Htr; [|discriminate].
    destruct (IH s1 s' H) as (s & err & Hk & Hlast & Herr).
    exists s, err. split; [|auto].
    simpl. rewrite Hw, Htr. exact Hk.
Qed.

End RetryFacts.

(** ** One attempt of a single-object transfer *)

Section TransferFacts.

Context {W path : Type}.
Variable google_installed : bool.
Variable initial_hexdigest : string -> string.
Variable KNOWN_HASH_TYPES : list string.
Variable run_stages :
  BaseStorageConnector W path -> BaseStorageConnector W path ->
  url path -> url path -> Z -> W -> (futures * (string -> string)) * W.

Local Abbreviation transfer_pipeline :=
  (transfer_pipeline KNOWN_HASH_TYPES run_stages).
Local Abbreviation transfer_wrapped :=
  (transfer_wrapped initial_hexdigest KNOWN_HASH_TYPES run_stages).
Local Abbreviation transfer :=
  (transfer google_installed initial_hexdigest KNOWN_HASH_TYPES run_stages).

Implicit Types (self : Transfer W path) (s : state W path).
Implicit Types (from_url to_url : url path) (fs : futures).

(** The download hash types that both connectors support, in the order
    of the destination. *)
Local Abbreviation common_hash self :=
  (filter (fun e => e ∈ supported_download_hash (from_connector self))
     (supported_download_hash (to_connector self))).

(** The calls that start the thread pool. *)
Local Abbreviation submits from_url to_url chunk :=
  [Submit_get from_url; Submit_compute chunk; Submit_push to_url].

Lemma any_exception_stage_exceptions fs :
  any_exception fs = true <->
  download_task fs <> None \/ hash_task fs <> None \/ upload_task fs <> None.
Proof.
  unfold any_exception. simpl.
  destruct (download_task fs), (hash_task fs), (upload_task fs); simpl;
    split; intros H; try reflexivity; try discriminate;
    try (left; discriminate); try (right; left; discriminate);
    try (right; right; discriminate).
  destruct H as [H | [H | H]]; congruence.
Qed.

Lemma elem_of_stage_exceptions fs e :
  e ∈ stage_exceptions fs <->
  download_task fs = Some e \/ hash_task fs = Some e \/ upload_task fs = Some e.
Proof.
  unfold stage_exceptions. rewrite list_elem_of_omap. split.
  - intros (o & Hin & Ho). simpl in Ho. subst o.
    rewrite !elem_of_cons in Hin. rewrite elem_of_nil in Hin.
    destruct Hin as [H | [H | [H | []]]]; symmetry in H; tauto.
  - intros H. exists (Some e). split; [|reflexivity].
    rewrite !elem_of_cons.
    destruct H as [<- | [<- | <-]]; tauto.
Qed.

(** Without the early return an attempt is the pipeline, run with a
    hasher whose chunk size is 8 MiB. *)
Lemma transfer_wrapped_pipeline self from_url to_url s0 dl dls ul uls s1 :
  supported_download_hash (from_connector self) = dl :: dls ->
  supported_upload_hash (to_connector self) = ul :: uls ->
  has_right_hash self from_url to_url s0 = (Ok false, s1) ->
  transfer_wrapped self from_url to_url s0
  = transfer_pipeline self from_url to_url
      (new_StreamHasher initial_hexdigest 8388608) dl ul s1.
Proof.
  intros Hdl Hul Hskip. unfold transfer_wrapped, Py.bind.
  rewrite Hdl, Hul. simpl. rewrite Hskip. reflexivity.
Qed.

Lemma transfer_wrapped_skip self from_url to_url s0 dl dls ul uls s1 :
  supported_download_hash (from_connector self) = dl :: dls ->
  supported_upload_hash (to_connector self) = ul :: uls ->
  has_right_hash self from_url to_url s0 = (Ok true, s1) ->
  transfer_wrapped self from_url to_url s0 = (Ok tt, s1).
Proof.
  intros Hdl Hul Hskip. unfold transfer_wrapped, Py.bind.
  rewrite Hdl, Hul. simpl. rewrite Hskip. reflexivity.
Qed.

(** A stage that raised: the destination is deleted, whatever [delete]
    answers, and the messages are joined. *)
Lemma transfer_pipeline_stage_failure self from_url to_url hasher dl ul s
    fs digests w1 :
  run_stages (from_connector self) (to_connector self) from_url to_url
    (chunk_size hasher) (world s) = (fs, digests, w1) ->
  any_exception fs = true ->
  transfer_pipeline self from_url to_url hasher dl ul s
  = (Raise (Exception DataTransferError
              (String.concat newline2 (str <$> stage_exceptions fs))),
     {| world := snd (delete (to_connector self) to_url w1);
        lists := lists s;
        calls := calls s ++ submits from_url to_url (chunk_size hasher)
                         ++ [Call_delete to_url] |}).
Proof.
  intros Hrun Hany.
  unfold transfer_pipeline, Py.bind, submit_stages.
  rewrite Hrun. simpl. rewrite Hany.
  unfold Py.suppress, Py.try_except, call, Py.bind, Py.raise, Py.ret. simpl.
  destruct (delete (to_connector self) to_url w1) as [[[]|e] w2]; simpl;
    rewrite <- app_assoc; reflexivity.
Qed.

(** No stage raised and both stored hashes were read: the outcome is
    decided by the comparison with the digests of the hasher. *)
Lemma transfer_pipeline_verification self from_url to_url hasher dl ul s
    fs digests w1 fh w2 th w3 :
  run_stages (from_connector self) (to_connector self) from_url to_url
    (chunk_size hasher) (world s) = (fs, digests, w1) ->
  any_exception fs = false ->
  get_hash (from_connector self) from_url dl w1 = (Ok fh, w2) ->
  get_hash (to_connector self) to_url ul w2 = (Ok th, w3) ->
  let fetched :=
    (submits from_url to_url (chunk_size hasher)
       ++ [Call_get_hash from_side from_url dl;
           Call_get_hash to_side to_url ul])%list in
  let hashes :=
    computed_hashes KNOWN_HASH_TYPES
      {| chunk_size := chunk_size hasher; hexdigest := digests |} in
  transfer_pipeline self from_url to_url hasher dl ul s
  = if bool_decide ((fh, th) = (Some (digests dl), Some (digests ul)))
    then (fst (set_hashes (to_connector self) to_url hashes w3),
          {| world := snd (set_hashes (to_connector self) to_url hashes w3);
             lists := lists s;
             calls := calls s ++ fetched ++ [Call_set_hashes to_url hashes] |})
    else (Raise (Exception DataTransferError ""),
          {| world := snd (delete (to_connector self) to_url w3);
             lists := lists s;
             calls := calls s ++ fetched ++ [Call_delete to_url] |}).
Proof.
  intros Hrun Hany Hfrom Hto fetched hashes.
  unfold transfer_pipeline, Py.bind, submit_stages.
  rewrite Hrun. simpl. rewrite Hany.
  unfold call at 1. simpl. rewrite Hfrom.
  unfold call at 1. simpl. rewrite Hto.
  destruct (bool_decide ((fh, th) = (Some (digests dl), Some (digests ul))));
    simpl.
  - unfold call. simpl. subst fetched hashes.
    destruct (set_hashes _ _ _ _) as [r w4]; simpl.
    rewrite <- !app_assoc. reflexivity.
  - unfold Py.suppress, Py.try_except, call, Py.bind, Py.raise, Py.ret. simpl.
    subst fetched.
    destruct (delete (to_connector self) to_url w3) as [[[]|e] w4]; simpl;
      rewrite <- !app_assoc; reflexivity.
Qed.


(** What the check for an object with the right hash returns, and the
    calls it makes. *)
Lemma has_right_hash_true self from_url to_url s0 s1 :
  has_right_hash self from_url to_url s0 = (Ok true, s1) <->
  exists hash_type rest h w1 w2,
    common_hash self = hash_type :: rest /\
    get_hash (from_connector self) from_url hash_type (world s0)
      = (Ok (Some h), w1) /\
    get_hash (to_connector self) to_url hash_type w1 = (Ok (Some h), w2) /\
    s1 = {| world := w2; lists := lists s0;
            calls := calls s0 ++ [Call_get_hash from_side from_url hash_type;
                                  Call_get_hash to_side to_url hash_type] |}.
Proof.
  unfold has_right_hash.
  destruct (common_hash self) as [|hash_type rest] eqn:Hcommon.
  - split; [discriminate | intros (? & ? & ? & ? & ? & H & _); discriminate].
  - unfold Py.bind, call, Py.ret. simpl.
    destruct (get_hash (from_connector self) _ _ _) as [[fh|e] w1] eqn:Hfrom;
      simpl.
    2:{ split; [discriminate|].
        intros (? & ? & ? & ? & ? & H & H' & _).
        injection H as <- <-. congruence. }
    destruct (get_hash (to_connector self) _ _ _) as [[th|e] w2] eqn:Hto;
      simpl.
    2:{ split; [discriminate|].
        intros (? & ? & ? & ? & ? & H & H1 & H2 & _).
        injection H as <- <-. congruence. }
    split.
    + intros H. injection H as Hcond <-.
      apply andb_true_iff in Hcond as [Heq Hsome].
      apply bool_decide_eq_true in Heq. subst th.
      destruct fh as [h|]; [|discriminate].
      exists hash_type, rest, h, w1, w2.
      rewrite <- app_assoc. auto.
    + intros (ht & rest' & h & w1' & w2' & H & H1 & H2 & ->).
      injection H as <- <-.
      rewrite Hfrom in H1. injection H1 as -> <-.
      rewrite Hto in H2. injection H2 as -> <-.
      rewrite bool_decide_eq_true_2 by reflexivity. simpl.
      rewrite <- app_assoc. reflexivity.
Qed.


Lemma submitted_get_app (l1 l2 : list (event path)) :
  submitted_get (l1 ++ l2) = (submitted_get l1 ++ submitted_get l2)%list.
Proof. unfold submitted_get. apply omap_app. Qed.

(** ** The claims about [transfer] *)

(** C2 (as amended): a call of [transfer] makes at most three attempts.
    When [k] attempts in a row have failed with a transient error, the
    result of the next attempt is the result of [transfer] if that
    attempt succeeds or fails with another error (and [k] is 0 or 1), or
    if it is the third attempt ([k] is 2), whatever it gives: a transient
    failure of the third attempt is surfaced, there is no fourth. *)
Theorem transfer_makes_at_most_three_attempts self from_url to_url k s0 s r s' :
  after_failures google_installed (transfer_wrapped self from_url to_url) k s0
    = Some s ->
  transfer_wrapped self from_url to_url s = (r, s') ->
  (k < 2)%nat /\ transient_failure google_installed r = false \/ k = 2%nat ->
  transfer self from_url to_url s0 = (r, s').
Proof.
  intros Hfail Hnext Hcase.
  unfold transfer, retry_on_transfer_error, ERROR_MAX_RETRIES.
  apply (retry_loop_outcome google_installed _ k 3%nat None s0 s r s' Hfail Hnext).
  - destruct Hcase as [[Hk _] | ->]; lia.
  - destruct Hcase as [[_ Hnt] | ->]; [left; exact Hnt | right; reflexivity].
Qed.

(** C3 (as amended): when all three attempts of [transfer] fail with a
    transient error, the exception raised to the caller is the very
    exception that the third attempt raised, of whatever class it is; it
    is not turned into another one. *)
Theorem transfer_raises_the_last_error self from_url to_url s0 s3 :
  after_failures google_installed (transfer_wrapped self from_url to_url)
    3 s0 = Some s3 ->
  exists s2 err,
    after_failures google_installed (transfer_wrapped self from_url to_url)
      2 s0 = Some s2 /\
    transfer_wrapped self from_url to_url s2 = (Raise err, s3) /\
    isinstance err (transfer_exceptions google_installed) = true /\
    transfer self from_url to_url s0 = (Raise err, s3).
Proof.
  intros Hall.
  destruct (after_failures_last _ _ _ _ _ Hall) as (s2 & err & H2 & Hlast & Herr).
  exists s2, err. repeat split; try assumption.
  unfold transfer, retry_on_transfer_error, ERROR_MAX_RETRIES.
  apply (retry_loop_outcome google_installed _ 2 3%nat None s0 s2 _ s3 H2 Hlast);
    [lia | right; reflexivity].
Qed.

(** C4 (as amended): a hash mismatch found by the verification makes the
    attempt raise [DataTransferError], which is one of the
    [transfer_exceptions]: the decorator runs the wrapped transfer again
    from the state the failed attempt left.  The caller gets the result
    of that second attempt when it is not a transient failure, and
    otherwise the result of the third attempt, whatever it is. *)
Theorem hash_mismatch_is_retried self from_url to_url s0 dl dls ul uls s1
    fs digests w1 fh w2 th w3 :
  supported_download_hash (from_connector self) = dl :: dls ->
  supported_upload_hash (to_connector self) = ul :: uls ->
  has_right_hash self from_url to_url s0 = (Ok false, s1) ->
  run_stages (from_connector self) (to_connector self) from_url to_url
    8388608 (world s1) = (fs, digests, w1) ->
  any_exception fs = false ->
  get_hash (from_connector self) from_url dl w1 = (Ok fh, w2) ->
  get_hash (to_connector self) to_url ul w2 = (Ok th, w3) ->
  (fh, th) <> (Some (digests dl), Some (digests ul)) ->
  let mismatch := Exception DataTransferError "" in
  let failed :=
    {| world := snd (delete (to_connector self) to_url w3);
       lists := lists s1;
       calls := calls s1 ++ submits from_url to_url 8388608
                  ++ [Call_get_hash from_side from_url dl;
                      Call_get_hash to_side to_url ul; Call_delete to_url] |} in
  transfer_wrapped self from_url to_url s0 = (Raise mismatch, failed) /\
  transfer self from_url to_url s0
  = retry_loop google_installed 2 (Some mismatch)
      (transfer_wrapped self from_url to_url) failed /\
  (forall r s2,
     transfer_wrapped self from_url to_url failed = (r, s2) ->
     transient_failure google_installed r = false ->
     transfer self from_url to_url s0 = (r, s2)) /\
  (forall r s2,
     transfer_wrapped self from_url to_url failed = (r, s2) ->
     transient_failure google_installed r = true ->
     transfer self from_url to_url s0
     = transfer_wrapped self from_url to_url s2).
Proof.
  intros Hdl Hul Hskip Hrun Hany Hfrom Hto Hne mismatch failed.
  assert (Hfirst :
    transfer_wrapped self from_url to_url s0 = (Raise mismatch, failed)).
  { rewrite (transfer_wrapped_pipeline _ _ _ _ _ _ _ _ _ Hdl Hul Hskip).
    rewrite (transfer_pipeline_verification self from_url to_url
               (new_StreamHasher initial_hexdigest 8388608) dl ul s1
               fs digests w1 fh w2 th w3 Hrun Hany Hfrom Hto).
    rewrite bool_decide_eq_false_2 by exact Hne.
    subst failed. reflexivity. }
  assert (Hone :
    after_failures google_installed (transfer_wrapped self from_url to_url)
      1 s0 = Some failed).
  { cbn [after_failures]. rewrite Hfirst. subst mismatch.
    cbn [transient_failure].
    rewrite isinstance_DataTransferError. reflexivity. }
  split; [exact Hfirst|]. split; [|split].
  - unfold transfer, retry_on_transfer_error, ERROR_MAX_RETRIES.
    apply retry_loop_again; [exact Hfirst|].
    apply isinstance_DataTransferError.
  - intros r s2 Hsecond Hnt.
    unfold transfer, retry_on_transfer_error, ERROR_MAX_RETRIES.
    apply (retry_loop_outcome google_installed _ 1 3%nat None s0 failed r s2);
      [exact Hone|exact Hsecond|lia|left; exact Hnt].
  - intros r s2 Hsecond Htr.
    destruct (transfer_wrapped self from_url to_url s2) as [r3 s3] eqn:Hthird.
    unfold transfer, retry_on_transfer_error, ERROR_MAX_RETRIES.
    apply (retry_loop_outcome google_installed _ 2 3%nat None s0 s2 r3 s3);
      [|exact Hthird|lia|right; reflexivity].
    cbn [after_failures]. rewrite Hfirst. subst mismatch.
    cbn [transient_failure]. rewrite isinstance_DataTransferError.
    rewrite Hsecond, Htr. reflexivity.
Qed.

(** A stage that raised, in one attempt: the attempt calls [delete] on
    the destination object, goes on whatever that call answers, and
    raises one [DataTransferError] whose message joins the messages of
    the stages that raised, in the order download, hash, upload. *)
Lemma attempt_stage_failure self from_url to_url s0 dl dls ul uls s1
    fs digests w1 :
  supported_download_hash (from_connector self) = dl :: dls ->
  supported_upload_hash (to_connector self) = ul :: uls ->
  has_right_hash self from_url to_url s0 = (Ok false, s1) ->
  run_stages (from_connector self) (to_connector self) from_url to_url
    8388608 (world s1) = (fs, digests, w1) ->
  download_task fs <> None \/ hash_task fs <> None \/ upload_task fs <> None ->
  let ex := stage_exceptions fs in
  transfer_wrapped self from_url to_url s0
  = (Raise (Exception DataTransferError (String.concat newline2 (str <$> ex))),
     {| world := snd (delete (to_connector self) to_url w1);
        lists := lists s1;
        calls := calls s1 ++ submits from_url to_url 8388608
                   ++ [Call_delete to_url] |}) /\
  (forall e, e ∈ ex <->
     download_task fs = Some e \/ hash_task fs = Some e
     \/ upload_task fs = Some e).
Proof.
  intros Hdl Hul Hskip Hrun Hraised ex. split.
  - rewrite (transfer_wrapped_pipeline _ _ _ _ _ _ _ _ _ Hdl Hul Hskip).
    apply (transfer_pipeline_stage_failure self from_url to_url
             (new_StreamHasher initial_hexdigest 8388608) dl ul s1
             fs digests w1 Hrun).
    apply any_exception_stage_exceptions. exact Hraised.
  - intros e. apply elem_of_stage_exceptions.
Qed.


(** C10: an attempt that finds the right hash at the destination
    returns after two calls of [get_hash] and nothing else: no stage is
    submitted, there is no [delete] and no [set_hashes]; as a first
    attempt it is all that [transfer] does.  The list objects are as
    before, and so is the storage world when [get_hash] only reads. *)
Theorem right_hash_leaves_destination_alone self from_url to_url s0
    hash_type rest h w1 w2 :
  supported_upload_hash (to_connector self) <> [] ->
  common_hash self = hash_type :: rest ->
  get_hash (from_connector self) from_url hash_type (world s0)
    = (Ok (Some h), w1) ->
  get_hash (to_connector self) to_url hash_type w1 = (Ok (Some h), w2) ->
  let made := [Call_get_hash from_side from_url hash_type;
               Call_get_hash to_side to_url hash_type] in
  let after :=
    {| world := w2; lists := lists s0; calls := calls s0 ++ made |} in
  transfer_wrapped self from_url to_url s0 = (Ok tt, after) /\
  transfer self from_url to_url s0 = (Ok tt, after) /\
  Forall (fun ev => is_mutating ev = false) made /\
  ((forall c u ht w, snd (get_hash (connector self c) u ht w) = w) ->
   w2 = world s0).
Proof.
  intros Hul Hc Hf Ht made after.
  destruct (supported_upload_hash (to_connector self)) as [|ul uls] eqn:Eul;
    [congruence|]. clear Hul.
  assert (Hin : hash_type ∈ common_hash self) by (rewrite Hc; left).
  apply list_elem_of_filter in Hin as [Hin _].
  destruct (supported_download_hash (from_connector self)) as [|dl dls] eqn:Edl.
  { apply elem_of_nil in Hin. destruct Hin. }
  assert (Hattempt : transfer_wrapped self from_url to_url s0 = (Ok tt, after)).
  { apply (transfer_wrapped_skip _ _ _ _ _ _ _ _ _ Edl Eul).
    apply has_right_hash_true.
    exists hash_type, rest, h, w1, w2. rewrite Edl. auto. }
  split; [exact Hattempt|]. split; [|split].
  - unfold transfer, retry_on_transfer_error, ERROR_MAX_RETRIES.
    apply (retry_loop_outcome google_installed _ 0 3%nat None s0 s0);
      [reflexivity|exact Hattempt|lia|left; reflexivity].
  - repeat constructor.
  - intros Hread.
    pose proof (Hread from_side from_url hash_type (world s0)) as H1.
    pose proof (Hread to_side to_url hash_type w1) as H2.
    simpl in H1, H2. rewrite Hf in H1. rewrite Ht in H2. simpl in H1, H2.
    congruence.
Qed.

End TransferFacts.

(** ** Transfer of a list of objects *)

Section TransferRecFacts.

Context {W path : Type}.
Variable Path : string -> path.
Variable truediv : path -> string -> path.
Variable google_installed : bool.
Variable initial_hexdigest : string -> string.
Variable KNOWN_HASH_TYPES : list string.
Variable run_stages :
  BaseStorageConnector W path -> BaseStorageConnector W path ->
  url path -> url path -> Z -> W -> (futures * (string -> string)) * W.

Local Abbreviation transfer :=
  (transfer google_installed initial_hexdigest KNOWN_HASH_TYPES run_stages).
Local Abbreviation transfer_entries :=
  (transfer_entries truediv google_installed initial_hexdigest
     KNOWN_HASH_TYPES run_stages).
Local Abbreviation transfer_rec :=
  (transfer_rec Path truediv google_installed initial_hexdigest
     KNOWN_HASH_TYPES run_stages).

Implicit Types (self : Transfer W path) (s : state W path) (u : string).

(** The loop transfers the entries that do not end in a slash, each
    from and to the path of the entry under the URL. *)
Lemma transfer_entries_filter self (p : path) (entries : list string) :
  transfer_entries self p entries
  = Py.for_each (filter (fun entry => endswith entry "/" = false) entries)
      (fun entry => transfer self (PathObj (truediv p entry))
                                  (PathObj (truediv p entry))).
Proof.
  unfold transfer_entries.
  induction entries as [|entry entries IH]; [reflexivity|].
  rewrite filter_cons. simpl.
  destruct (endswith entry "/") eqn:Hdir; simpl.
  - rewrite <- IH. reflexivity.
  - rewrite <- IH. reflexivity.
Qed.

Lemma pre_processing_before_get_raises self v ob s e st :
  before_get (from_connector self) ob v (Store (world s) (lists s))
    = (Raise e, st) ->
  fst (pre_processing self v ob s) = Raise e.
Proof.
  intros H. unfold pre_processing, Py.bind, call_hook. rewrite H. reflexivity.
Qed.

Lemma pre_processing_before_push_raises self v ob s ott st e st' :
  before_get (from_connector self) ob v (Store (world s) (lists s))
    = (Ok ott, st) ->
  before_push (to_connector self) ott v st = (Raise e, st') ->
  fst (pre_processing self v ob s) = Raise e.
Proof.
  intros H1 H2. unfold pre_processing, Py.bind, call_hook. rewrite H1. simpl.
  destruct st as [w l]. simpl. rewrite H2. reflexivity.
Qed.

Lemma post_processing_after_get_raises self v ob s e st :
  after_get (from_connector self) ob v (Store (world s) (lists s))
    = (Raise e, st) ->
  fst (post_processing self v ob s) = Raise e.
Proof.
  intros H. unfold post_processing, Py.bind, call_hook. rewrite H. reflexivity.
Qed.

Lemma post_processing_after_push_raises self v ob s r st e st' :
  after_get (from_connector self) ob v (Store (world s) (lists s))
    = (Ok r, st) ->
  after_push (to_connector self) ob v st = (Raise e, st') ->
  fst (post_processing self v ob s) = Raise e.
Proof.
  intros H1 H2. unfold post_processing, Py.bind, call_hook. rewrite H1. simpl.
  destruct st as [w l]. simpl. rewrite H2. reflexivity.
Qed.

(** C9: with the list of objects in hand, an exception raised by
    [before_get] or [before_push] is an exception of [pre_processing],
    and one raised by [after_get] or [after_push] is an exception of
    [post_processing]; [transfer_rec] turns every exception of
    [pre_processing], and every exception of [post_processing], into a
    [DataTransferError] with no message, and raises that one instead. *)
Theorem transfer_rec_converts_hook_errors self u objects s0 objs s1 :
  objects_or_listing self u objects s0 = (Ok objs, s1) ->
  let converted := Raise (Exception DataTransferError "") in
  (forall e s2,
     pre_processing self (Str u) objs s1 = (Raise e, s2) ->
     transfer_rec self u objects s0 = (converted, s2)) /\
  (forall ott s2 entries s3 e s4,
     pre_processing self (Str u) objs s1 = (Ok ott, s2) ->
     iter objs s2 = (Ok entries, s2) ->
     transfer_entries self (Path u) entries s2 = (Ok tt, s3) ->
     post_processing self (PathObj (Path u)) ott s3 = (Raise e, s4) ->
     transfer_rec self u objects s0 = (converted, s4)) /\
  (forall v ob s e st,
     before_get (from_connector self) ob v (Store (world s) (lists s))
       = (Raise e, st) ->
     fst (pre_processing self v ob s) = Raise e) /\
  (forall v ob s ott st e st',
     before_get (from_connector self) ob v (Store (world s) (lists s))
       = (Ok ott, st) ->
     before_push (to_connector self) ott v st = (Raise e, st') ->
     fst (pre_processing self v ob s) = Raise e) /\
  (forall v ob s e st,
     after_get (from_connector self) ob v (Store (world s) (lists s))
       = (Raise e, st) ->
     fst (post_processing self v ob s) = Raise e) /\
  (forall v ob s r st e st',
     after_get (from_connector self) ob v (Store (world s) (lists s))
       = (Ok r, st) ->
     after_push (to_connector self) ob v st = (Raise e, st') ->
     fst (post_processing self v ob s) = Raise e).
Proof.
  intros Hobj converted. repeat split.
  - intros e s2 Hpre.
    unfold transfer_rec, Py.bind, Py.try_except. rewrite Hobj, Hpre.
    reflexivity.
  - intros ott s2 entries s3 e s4 Hpre Hiter Hloop Hpost.
    unfold transfer_rec, Py.bind, Py.try_except.
    rewrite Hobj, Hpre, Hiter. fold (transfer_entries self (Path u) entries).
    rewrite Hloop, Hpost. reflexivity.
  - apply pre_processing_before_get_raises.
  - apply pre_processing_before_push_raises.
  - apply post_processing_after_get_raises.
  - apply post_processing_after_push_raises.
Qed.

End TransferRecFacts.

(** ** Runs on the in-memory connectors *)

Section Runs.

Import Memory.

Local Abbreviation timed_out := (Exception ReadTimeout "read timed out").

(** One attempt that ends with a hash mismatch: the stages, the two
    stored hashes and the deletion. *)
Local Abbreviation mismatch_calls :=
  [Submit_get data_a; Submit_compute 8388608; Submit_push data_a;
   Call_get_hash from_side data_a "md5";
   Call_get_hash to_side data_a "crc32c";
   Call_delete data_a].

(** C1: the destination declares a multipart chunk size of 5 MiB, yet
    the hasher that runs has the chunk size 8 MiB, and 8388608 is what is
    stored as [_upload_chunk_size]. *)
Theorem transfer_hashes_in_8MiB_chunks :
  let out := Memory.transfer multipart data_a data_a (initial 0 false) in
  multipart_chunksize (to_connector multipart) = Some 5242880 /\
  fst out = Ok tt /\
  submitted_compute (calls (snd out)) = [8388608] /\
  (dest_hashes (world (snd out)) !! "data/a")
    ≫= (fun hashes => hashes !! "_upload_chunk_size") = Some "8388608".
Proof. vm_compute. repeat split; reflexivity. Qed.

(** Three reads of the stored hash time out: [transfer] makes three
    attempts and raises the time-out, although a fourth attempt would
    succeed. *)
Lemma transfer_gives_up_after_three_attempts :
  let out := Memory.transfer with_md5 data_a data_a (initial 3 false) in
  fst out = Raise timed_out /\
  calls (snd out) = [Call_get_hash from_side data_a "md5";
                     Call_get_hash from_side data_a "md5";
                     Call_get_hash from_side data_a "md5"] /\
  fst (Memory.transfer_wrapped with_md5 data_a data_a (snd out)) = Ok tt.
Proof. vm_compute. repeat split; reflexivity. Qed.

(** Every attempt times out: the exception that reaches the caller is a
    [ReadTimeout], not a [DataTransferError]. *)
Lemma exhausted_retries_raise_ReadTimeout :
  let attempt := Memory.transfer_wrapped with_md5 data_a data_a in
  after_failures true attempt 3 (initial 5 false) <> None /\
  exists err s,
    Memory.transfer with_md5 data_a data_a (initial 5 false) = (Raise err, s) /\
    class_of err = ReadTimeout /\
    class_of err <> DataTransferError.
Proof.
  split; [vm_compute; discriminate|].
  eexists _, _. split; [vm_compute; reflexivity|].
  split; [reflexivity | discriminate].
Qed.

(** The upload loses the bytes, so that the stored hash of the
    destination differs from the digest: the wrapped transfer runs three
    times, and each time gets to the verification and deletes the
    destination object. *)
Lemma hash_mismatch_runs_three_attempts :
  let out := Memory.transfer plain data_a data_a (initial 0 true) in
  fst out = Raise (Exception DataTransferError "") /\
  calls (snd out) = (mismatch_calls ++ mismatch_calls ++ mismatch_calls)%list /\
  submitted_get (calls (snd out)) = [data_a; data_a; data_a].
Proof. vm_compute. repeat split; reflexivity. Qed.

(** C5: [before_get] of the source returns a new list with the archive
    as its one entry.  Both [before_push] and the hooks after the
    transfer are given that list, but the objects transferred are [a] and
    [b], the entries of the list that [transfer_rec] was called with;
    the archive is not transferred. *)
Theorem transfer_rec_transfers_the_objects_given :
  let s0 := initial 0 false in
  let out := Memory.transfer_rec packing "data" (Some 0%nat) s0 in
  lists s0 !! 0%nat = Some ["a"; "b"; "sub/"] /\
  lists (snd out) !! 1%nat = Some ["all.zip"] /\
  hook_calls (calls (snd out))
    = [Call_before_get (Some 0%nat) (Str "data");
       Call_before_push (Some 1%nat) (Str "data");
       Call_after_get (Some 1%nat) (PathObj "data");
       Call_after_push (Some 1%nat) (PathObj "data")] /\
  submitted_get (calls (snd out)) = [PathObj "data/a"; PathObj "data/b"] /\
  fst out = Ok (Some 1%nat).
Proof. vm_compute. repeat split; reflexivity. Qed.

(** When the hook rewrites the list it was given in place, the loop
    does see the new entries. *)
Example transfer_rec_sees_a_list_changed_in_place :
  let out := Memory.transfer_rec packing_in_place "data" (Some 0%nat)
               (initial 0 false) in
  fst out = Ok None /\
  submitted_get (calls (snd out)) = [PathObj "data/all.zip"].
Proof. vm_compute. split; reflexivity. Qed.

(** Two reads time out and the third attempt succeeds. *)
Lemma transfer_makes_at_most_three_attempts_witness :
  fst (Memory.transfer with_md5 data_a data_a (initial 2 false)) = Ok tt.
Proof.
  refine (f_equal fst
    (transfer_makes_at_most_three_attempts true (digest "") KNOWN_HASH_TYPES
       run_stages with_md5 data_a data_a 2 (initial 2 false) _ (Ok tt) _
       _ _ _)).
  - vm_compute. reflexivity.
  - vm_compute. reflexivity.
  - right. reflexivity.
Defined.

(** Three reads time out, and the time-out of the third is raised. *)
Lemma transfer_raises_the_last_error_witness :
  exists s2 s3,
    Memory.transfer_wrapped with_md5 data_a data_a s2 = (Raise timed_out, s3) /\
    Memory.transfer with_md5 data_a data_a (initial 3 false)
    = (Raise timed_out, s3).
Proof.
  destruct (transfer_raises_the_last_error true (digest "") KNOWN_HASH_TYPES
              run_stages with_md5 data_a data_a (initial 3 false)
              (snd (Memory.transfer with_md5 data_a data_a (initial 3 false))))
    as (s2 & err & H2 & Hlast & Herr & Hall).
  - vm_compute. reflexivity.
  - exists s2, (snd (Memory.transfer with_md5 data_a data_a (initial 3 false))).
    assert (err = timed_out) as ->.
    { assert (Hfst : fst (Memory.transfer with_md5 data_a data_a (initial 3 false))
                     = Raise err)
        by (unfold Memory.transfer; rewrite Hall; reflexivity).
      vm_compute in Hfst. injection Hfst as <-. reflexivity. }
    split; [exact Hlast | exact Hall].
Defined.

(** The upload loses the bytes on the first attempt; the error of the
    second attempt, which is the same, is not yet surfaced either, and
    the one of the third is. *)
Lemma hash_mismatch_is_retried_witness :
  Memory.transfer plain data_a data_a (initial 0 true)
  = retry_loop true 2 (Some (Exception DataTransferError ""))
      (Memory.transfer_wrapped plain data_a data_a)
      (snd (Memory.transfer_wrapped plain data_a data_a (initial 0 true))).
Proof.
  pose proof (hash_mismatch_is_retried true (digest "") KNOWN_HASH_TYPES
    run_stages plain data_a data_a (initial 0 true)
    "md5" ["crc32c"] "crc32c" ["md5"] (initial 0 true)
    _ _ _ _ _ _ _
    eq_refl eq_refl eq_refl eq_refl eq_refl eq_refl eq_refl) as H.
  destruct H as (Hfirst & Hloop & _ & _).
  - vm_compute. discriminate.
  - unfold Memory.transfer, Memory.transfer_wrapped.
    rewrite Hloop, Hfirst. reflexivity.
Defined.

(** The destination holds the object with the same MD5 hash: through
    the decorator there are two reads and nothing else, and the
    destination is as it was. *)
Lemma right_hash_leaves_destination_alone_witness :
  Memory.transfer with_md5 data_a data_a already_there
  = (Ok tt,
     {| world := world already_there; lists := lists already_there;
        calls := [Call_get_hash from_side data_a "md5";
                  Call_get_hash to_side data_a "md5"] |}).
Proof.
  apply (right_hash_leaves_destination_alone true (digest "") KNOWN_HASH_TYPES
           run_stages with_md5 data_a data_a already_there "md5" []
           "md5:aaaa" (world already_there) (world already_there)).
  - discriminate.
  - vm_compute. reflexivity.
  - vm_compute. reflexivity.
  - vm_compute. reflexivity.
Defined.

(** A destination whose [before_push] fails: [transfer_rec] raises
    [DataTransferError] in place of the [ValueError] of the hook. *)
Lemma transfer_rec_converts_hook_errors_witness :
  fst (pre_processing broken_before_push (Str "data") (Some 0%nat)
         (initial 0 false))
  = Raise (Exception (OtherException "ValueError") "bad object list") /\
  fst (Memory.transfer_rec broken_before_push "data" (Some 0%nat)
         (initial 0 false))
  = Raise (Exception DataTransferError "").
Proof.
  pose proof (transfer_rec_converts_hook_errors Path truediv true (digest "")
    KNOWN_HASH_TYPES run_stages broken_before_push "data" (Some 0%nat)
    (initial 0 false) (Some 0%nat) (initial 0 false) eq_refl) as H.
  destruct H as (Hpre & _).
  split; [vm_compute; reflexivity|].
  unfold Memory.transfer_rec.
  erewrite Hpre; [reflexivity | vm_compute; reflexivity].
Defined.

End Runs.

(** * More properties of the code *)

(** ** Calls made by a single-object transfer *)

Section TransferCalls.

Context {W path : Type}.
Variable google_installed : bool.
Variable initial_hexdigest : string -> string.
Variable KNOWN_HASH_TYPES : list string.
Variable run_stages :
  BaseStorageConnector W path -> BaseStorageConnector W path ->
  url path -> url path -> Z -> W -> (futures * (string -> string)) * W.

Local Abbreviation transfer_pipeline :=
  (transfer_pipeline KNOWN_HASH_TYPES run_stages).
Local Abbreviation transfer_wrapped :=
  (transfer_wrapped initial_hexdigest KNOWN_HASH_TYPES run_stages).
Local Abbreviation transfer :=
  (transfer google_installed initial_hexdigest KNOWN_HASH_TYPES run_stages).

Implicit Types (self : Transfer W path) (s : state W path).
Implicit Types (from_url to_url : url path) (made : list (event path)).

Local Ltac close_log :=
  simpl; rewrite <- ?app_assoc; simpl;
  eexists; split; [reflexivity|];
  unfold within_attempts; simpl;
  repeat split; auto; repeat (constructor; simpl; auto).

Lemma deleted_app (l1 l2 : list (event path)) :
  deleted (l1 ++ l2) = (deleted l1 ++ deleted l2)%list.
Proof. unfold deleted. apply omap_app. Qed.

Lemma within_attempts_app from_url to_url n1 n2 made1 made2 :
  within_attempts from_url to_url n1 made1 ->
  within_attempts from_url to_url n2 made2 ->
  within_attempts from_url to_url (n1 + n2) (made1 ++ made2).
Proof.
  intros (Hc1 & Hs1 & Hd1) (Hc2 & Hs2 & Hd2). unfold within_attempts.
  rewrite submitted_get_app, deleted_app, !length_app.
  split; [apply Forall_app; auto | lia].
Qed.

Lemma within_attempts_nil from_url to_url n :
  within_attempts from_url to_url n [].
Proof. unfold within_attempts. simpl. repeat split; [constructor|lia|lia]. Qed.

Lemma within_attempts_le from_url to_url n m made :
  (n <= m)%nat ->
  within_attempts from_url to_url n made ->
  within_attempts from_url to_url m made.
Proof. intros Hle (Hc & Hs & Hd). unfold within_attempts. repeat split; [auto|lia|lia]. Qed.

Lemma has_right_hash_log self from_url to_url s0 :
  exists made,
    calls (snd (has_right_hash self from_url to_url s0))
      = (calls s0 ++ made)%list /\
    within_attempts from_url to_url 0 made.
Proof.
  unfold has_right_hash.
  destruct (filter _ _) as [|hash_type rest].
  - exists []. simpl. rewrite app_nil_r.
    split; [reflexivity | apply within_attempts_nil].
  - unfold Py.bind, call, Py.ret. simpl.
    destruct (get_hash (from_connector self) _ _ _) as [[fh|e] w1]; simpl;
      [|close_log].
    destruct (get_hash (to_connector self) _ _ _) as [[th|e] w2]; close_log.
Qed.

Lemma transfer_pipeline_log self from_url to_url hasher dl ul s :
  exists made,
    calls (snd (transfer_pipeline self from_url to_url hasher dl ul s))
      = (calls s ++ made)%list /\
    within_attempts from_url to_url 1 made.
Proof.
  unfold transfer_pipeline, Py.bind, submit_stages.
  destruct (run_stages _ _ _ _ _ _) as [[fs digests] w1]. simpl.
  destruct (any_exception fs).
  - unfold Py.suppress, Py.try_except, call, Py.bind, Py.raise, Py.ret. simpl.
    destruct (delete _ _ _) as [[[]|e] w2]; close_log.
  - unfold call at 1. simpl.
    destruct (get_hash (from_connector self) _ _ _) as [[fh|e] w2]; simpl;
      [|close_log].
    unfold call at 1. simpl.
    destruct (get_hash (to_connector self) _ _ _) as [[th|e] w3]; simpl;
      [|close_log].
    destruct (negb _).
    + unfold Py.suppress, Py.try_except, call, Py.bind, Py.raise, Py.ret.
      simpl. destruct (delete _ _ _) as [[[]|e] w4]; close_log.
    + unfold call. simpl. destruct (set_hashes _ _ _ _) as [r w4]; close_log.
Qed.

(** One attempt: calls about the two URLs only, at most one start of the
    thread pool and at most one [delete]. *)
Lemma transfer_wrapped_log self from_url to_url s :
  exists made,
    calls (snd (transfer_wrapped self from_url to_url s))
      = (calls s ++ made)%list /\
    within_attempts from_url to_url 1 made.
Proof.
  unfold transfer_wrapped, Py.bind.
  destruct (supported_download_hash (from_connector self)) as [|dl dls]; simpl.
  { exists []. rewrite app_nil_r. split; [reflexivity|apply within_attempts_nil]. }
  destruct (supported_upload_hash (to_connector self)) as [|ul uls]; simpl.
  { exists []. rewrite app_nil_r. split; [reflexivity|apply within_attempts_nil]. }
  destruct (has_right_hash_log self from_url to_url s) as (made1 & H1 & Hw1).
  destruct (has_right_hash self from_url to_url s) as [[[]|e] s1]; simpl in *.
  - exists made1. split; [exact H1|].
    apply (within_attempts_le _ _ 0 1 made1); [lia | exact Hw1].
  - destruct (transfer_pipeline_log self from_url to_url
                (new_StreamHasher initial_hexdigest (8 * 1024 * 1024))
                dl ul s1) as (made2 & H2 & Hw2).
    exists (made1 ++ made2)%list. rewrite H2, H1, <- app_assoc.
    split; [reflexivity|].
    apply (within_attempts_app _ _ 0 1 made1 made2 Hw1 Hw2).
  - exists made1. split; [exact H1|].
    apply (within_attempts_le _ _ 0 1 made1); [lia | exact Hw1].
Qed.

(** The loop of the decorator with [n] iterations left makes the calls
    of at most [n] attempts. *)
Lemma retry_loop_log self from_url to_url n : forall c s,
  exists made,
    calls (snd (retry_loop google_installed n c
                  (transfer_wrapped self from_url to_url) s))
      = (calls s ++ made)%list /\
    within_attempts from_url to_url n made.
Proof.
  induction n as [|n IH]; intros c s.
  - exists []. rewrite app_nil_r.
    split; [destruct c; reflexivity | apply within_attempts_nil].
  - destruct (transfer_wrapped_log self from_url to_url s) as (made1 & H1 & Hw1).
    cbn [retry_loop].
    destruct (transfer_wrapped self from_url to_url s) as [[a|err] s1];
      simpl in H1.
    + exists made1. split; [exact H1|].
      apply (within_attempts_le _ _ 1 (Datatypes.S n) made1); [lia | exact Hw1].
    + destruct (isinstance err _).
      * destruct (IH (Some err) s1) as (made2 & H2 & Hw2).
        exists (made1 ++ made2)%list. rewrite H2, H1, <- app_assoc.
        split; [reflexivity|].
        apply (within_attempts_app _ _ 1 n made1 made2 Hw1 Hw2).
      * exists made1. split; [exact H1|].
        apply (within_attempts_le _ _ 1 (Datatypes.S n) made1); [lia | exact Hw1].
Qed.

(** All the attempts of one call of [transfer]. *)
Lemma transfer_log self from_url to_url s :
  exists made,
    calls (snd (transfer self from_url to_url s)) = (calls s ++ made)%list /\
    within_attempts from_url to_url 3 made.
Proof. apply retry_loop_log. Qed.

(** Which exceptions the decorator retries. *)
Lemma isinstance_transfer_exceptions err :
  isinstance err (transfer_exceptions google_installed) = true <->
  class_of err ∈ [DataTransferError; RequestsConnectionError; ReadTimeout]
  \/ (google_installed = true /\ class_of err = ServiceUnavailable).
Proof.
  unfold isinstance, transfer_exceptions, gcs_exceptions.
  rewrite bool_decide_eq_true.
  destruct google_installed; simpl;
    rewrite ?elem_of_cons, ?elem_of_nil; intuition congruence.
Qed.

(** X6: every connector call that [transfer] makes, over all its
    attempts, is about the object it was asked to transfer: the source is
    read at [from_url] only, and the destination is read, written, deleted
    and given metadata at [to_url] only. *)
Theorem transfer_calls_are_about_its_object self from_url to_url s :
  exists made,
    calls (snd (transfer self from_url to_url s)) = (calls s ++ made)%list /\
    Forall (concerns from_url to_url) made.
Proof.
  destruct (transfer_log self from_url to_url s)
    as (made & Hcalls & Habout & _).
  exists made. split; [exact Hcalls | exact Habout].
Qed.

(** X7: whatever the connectors do, one call of [transfer] starts the
    thread pool at most three times and calls [delete] on the destination
    at most three times. *)
Theorem transfer_bounds_its_work self from_url to_url s :
  exists made,
    calls (snd (transfer self from_url to_url s)) = (calls s ++ made)%list /\
    (length (submitted_get made) <= 3)%nat /\
    (length (deleted made) <= 3)%nat.
Proof.
  destruct (transfer_log self from_url to_url s)
    as (made & Hcalls & _ & Hbound).
  exists made. split; [exact Hcalls | exact Hbound].
Qed.

(** X1: a source with no download hash type, or a destination with no
    upload hash type, makes [transfer] raise [IndexError] at once: no
    connector is called, nothing is retried, and the state is as before. *)
Theorem transfer_needs_native_hash_types self from_url to_url s :
  supported_download_hash (from_connector self) = []
  \/ supported_upload_hash (to_connector self) = [] ->
  transfer self from_url to_url s
  = (Raise (Exception IndexError "list index out of range"), s).
Proof.
  intros Hempty.
  assert (Hattempt : transfer_wrapped self from_url to_url s
    = (Raise (Exception IndexError "list index out of range"), s)).
  { unfold transfer_wrapped, Py.bind.
    destruct Hempty as [-> | Hul]; [reflexivity|].
    destruct (supported_download_hash (from_connector self)); simpl;
      [reflexivity|].
    rewrite Hul. reflexivity. }
  unfold transfer, retry_on_transfer_error, ERROR_MAX_RETRIES.
  apply (retry_loop_outcome google_installed _ 0 3%nat None s s);
    [reflexivity|exact Hattempt|lia|left].
  simpl. apply not_true_is_false. intros Hin.
  apply isinstance_transfer_exceptions in Hin. simpl in Hin.
  rewrite !elem_of_cons, elem_of_nil in Hin. intuition congruence.
Qed.

(** X9: what [transfer] does with the exception of a first attempt goes
    by its class.  A [DataTransferError], a connection error or a read
    time-out starts a second attempt; a [ServiceUnavailable] does so only
    where [google.api_core] could be imported; an exception of any other
    class is raised at once, after that single attempt. *)
Theorem transfer_retries_by_class self from_url to_url s0 err s1 :
  transfer_wrapped self from_url to_url s0 = (Raise err, s1) ->
  let again :=
    retry_loop google_installed 2 (Some err)
      (transfer_wrapped self from_url to_url) s1 in
  (class_of err ∈ [DataTransferError; RequestsConnectionError; ReadTimeout] ->
   transfer self from_url to_url s0 = again) /\
  (class_of err = ServiceUnavailable ->
   transfer self from_url to_url s0
   = if google_installed then again else (Raise err, s1)) /\
  (class_of err ∉ [DataTransferError; RequestsConnectionError; ReadTimeout;
                   ServiceUnavailable] ->
   transfer self from_url to_url s0 = (Raise err, s1)).
Proof.
  intros Hfirst again.
  assert (Hyes : isinstance err (transfer_exceptions google_installed) = true ->
                 transfer self from_url to_url s0 = again).
  { intros Hin. unfold transfer, retry_on_transfer_error, ERROR_MAX_RETRIES.
    apply retry_loop_again; assumption. }
  assert (Hno : isinstance err (transfer_exceptions google_installed) = false ->
                transfer self from_url to_url s0 = (Raise err, s1)).
  { intros Hout. unfold transfer, retry_on_transfer_error, ERROR_MAX_RETRIES.
    apply (retry_loop_outcome google_installed _ 0 3%nat None s0 s0);
      [reflexivity|exact Hfirst|lia|left; exact Hout]. }
  split; [|split].
  - intros Hcls. apply Hyes, isinstance_transfer_exceptions. left. exact Hcls.
  - intros Hcls.
    destruct (bool_dec google_installed true) as [Hg|Hg].
    + rewrite Hyes by (apply isinstance_transfer_exceptions; right; auto).
      rewrite Hg. reflexivity.
    + rewrite Hno.
      * apply not_true_is_false in Hg. rewrite Hg. reflexivity.
      * apply not_true_is_false. intros Hin.
        apply isinstance_transfer_exceptions in Hin.
        rewrite Hcls, !elem_of_cons, elem_of_nil in Hin. intuition congruence.
  - intros Hcls. apply Hno, not_true_is_false. intros Hin.
    apply isinstance_transfer_exceptions in Hin. apply Hcls.
    rewrite !elem_of_cons, elem_of_nil in *. intuition.
Qed.

End TransferCalls.

(** ** The metadata stored after a transfer *)

Lemma list_to_map_digests (digests : string -> string) (types : list string)
    (k : string) :
  (list_to_map ((fun hash_type => (hash_type, digests hash_type)) <$> types)
     : gmap string string) !! k
  = if decide (k ∈ types) then Some (digests k) else None.
Proof.
  induction types as [|hash_type types IH].
  - rewrite fmap_nil, list_to_map_nil, lookup_empty.
    rewrite decide_False; [reflexivity|]. apply not_elem_of_nil.
  - rewrite fmap_cons, list_to_map_cons, lookup_insert.
    destruct (decide (hash_type = k)) as [->|Hne].
    + rewrite decide_True by (left; reflexivity). reflexivity.
    + rewrite IH. destruct (decide (k ∈ types)) as [Hin|Hout].
      * rewrite decide_True by (right; exact Hin). reflexivity.
      * rewrite decide_False; [reflexivity|].
        rewrite elem_of_cons. intuition congruence.
Qed.

(** X2: the dictionary that [transfer] hands to [set_hashes] holds the
    chunk size of the hasher, in decimal, under [_upload_chunk_size]
    (also when that is the name of a known hash type), the digest of the
    hasher under every other known hash type, and nothing else. *)
Theorem computed_hashes_lookup (KNOWN_HASH_TYPES : list string)
    (hasher : StreamHasher) (k : string) :
  computed_hashes KNOWN_HASH_TYPES hasher !! k
  = if decide (k = "_upload_chunk_size")
    then Some (pretty (chunk_size hasher))
    else if decide (k ∈ KNOWN_HASH_TYPES)
         then Some (hexdigest hasher k)
         else None.
Proof.
  unfold computed_hashes. rewrite lookup_insert.
  destruct (decide ("_upload_chunk_size" = k)) as [<-|Hne].
  - rewrite decide_True by reflexivity. reflexivity.
  - rewrite decide_False by congruence. apply list_to_map_digests.
Qed.

(** ** Calls made by the transfer of a list of objects *)

Section TransferRecCalls.

Context {W path : Type}.
Variable Path : string -> path.
Variable truediv : path -> string -> path.
Variable google_installed : bool.
Variable initial_hexdigest : string -> string.
Variable KNOWN_HASH_TYPES : list string.
Variable run_stages :
  BaseStorageConnector W path -> BaseStorageConnector W path ->
  url path -> url path -> Z -> W -> (futures * (string -> string)) * W.

Local Abbreviation transfer :=
  (transfer google_installed initial_hexdigest KNOWN_HASH_TYPES run_stages).
Local Abbreviation transfer_entries :=
  (transfer_entries truediv google_installed initial_hexdigest
     KNOWN_HASH_TYPES run_stages).
Local Abbreviation transfer_rec :=
  (transfer_rec Path truediv google_installed initial_hexdigest
     KNOWN_HASH_TYPES run_stages).

Implicit Types (self : Transfer W path) (s : state W path) (u : string).
Implicit Types (p : path) (entries : list string).

(** The state [s'] has the calls of [s] and then calls that satisfy [P]. *)
Local Abbreviation extends P s s' :=
  (exists made, calls s' = (calls s ++ made)%list /\ Forall P made).

(** A call about the entry [entry] under [p], for an entry that is not
    a directory. *)
Local Abbreviation about_entry p entries :=
  (fun ev => exists entry,
     entry ∈ entries /\ endswith entry "/" = false /\
     concerns (PathObj (truediv p entry)) (PathObj (truediv p entry)) ev).

Local Abbreviation not_listing := (fun ev : event path => is_listing ev = false).

Lemma extends_refl (P : event path -> Prop) s : extends P s s.
Proof. exists []. rewrite app_nil_r. split; [reflexivity|constructor]. Qed.

Lemma extends_trans (P : event path -> Prop) s1 s2 s3 :
  extends P s1 s2 -> extends P s2 s3 -> extends P s1 s3.
Proof.
  intros (m1 & H1 & HP1) (m2 & H2 & HP2). exists (m1 ++ m2)%list.
  rewrite H2, H1, <- app_assoc. split; [reflexivity|].
  apply Forall_app. auto.
Qed.

Lemma extends_impl (P Q : event path -> Prop) s1 s2 :
  (forall ev, P ev -> Q ev) -> extends P s1 s2 -> extends Q s1 s2.
Proof.
  intros HPQ (m & H & HP). exists m. split; [exact H|].
  apply (Forall_impl _ _ _ HP HPQ).
Qed.

Lemma concerns_not_listing (from_url to_url : url path) ev :
  concerns from_url to_url ev -> is_listing ev = false.
Proof. destruct ev; simpl; try reflexivity. intros []. Qed.

(** The loop is the composition of the loops over two parts of the
    list. *)
Lemma for_each_app {S A} (body : A -> Py.M S unit) (xs ys : list A) (s : S) :
  Py.for_each (xs ++ ys) body s
  = Py.bind (Py.for_each xs body) (fun _ => Py.for_each ys body) s.
Proof.
  revert s. induction xs as [|x xs IH]; intros s; [reflexivity|].
  simpl. unfold Py.bind.
  destruct (body x s) as [[[]|e] s1]; [|reflexivity].
  rewrite IH. reflexivity.
Qed.

Lemma transfer_entries_log self p entries : forall s,
  extends (about_entry p entries) s (snd (transfer_entries self p entries s)).
Proof.
  unfold transfer_entries.
  induction entries as [|entry entries IH]; intros s.
  - apply extends_refl.
  - simpl. unfold Py.bind at 1.
    destruct (endswith entry "/") eqn:Hdir; simpl.
    + apply (extends_impl (about_entry p entries)); [|apply IH].
      intros ev (e & Hin & Hnd & Hc). exists e.
      split; [right; exact Hin | auto].
    + destruct (transfer_log google_installed initial_hexdigest
                  KNOWN_HASH_TYPES run_stages self
                  (PathObj (truediv p entry)) (PathObj (truediv p entry)) s)
        as (made & Hcalls & Habout & _).
      assert (Hone : extends (about_entry p (entry :: entries)) s
                (snd (transfer self (PathObj (truediv p entry))
                        (PathObj (truediv p entry)) s))).
      { exists made. split; [exact Hcalls|].
        apply (Forall_impl _ _ _ Habout). intros ev Hc.
        exists entry. split; [left; reflexivity | auto]. }
      destruct (transfer self _ _ s) as [[[]|e] s1]; simpl in *;
        [|exact Hone].
      apply (extends_trans _ s s1); [exact Hone|].
      apply (extends_impl (about_entry p entries)); [|apply IH].
      intros ev (e & Hin & Hnd & Hc). exists e.
      split; [right; exact Hin | auto].
Qed.

Lemma pre_processing_log self v ob s :
  extends not_listing s (snd (pre_processing self v ob s)).
Proof.
  unfold pre_processing, Py.bind, call_hook, Py.ret.
  destruct (before_get _ _ _ _) as [[ott|e] st]; simpl.
  - destruct (before_push _ _ _ _) as [[r|e] st']; simpl;
      rewrite <- app_assoc; eexists; (split; [reflexivity|]);
      repeat constructor.
  - eexists; (split; [reflexivity|]); repeat constructor.
Qed.

Lemma post_processing_log self v ob s :
  extends not_listing s (snd (post_processing self v ob s)).
Proof.
  unfold post_processing, Py.bind, call_hook, Py.ret.
  destruct (after_get _ _ _ _) as [[r|e] st]; simpl.
  - destruct (after_push _ _ _ _) as [[r'|e] st']; simpl;
      rewrite <- app_assoc; eexists; (split; [reflexivity|]);
      repeat constructor.
  - eexists; (split; [reflexivity|]); repeat constructor.
Qed.

Lemma iter_state (objects : pyref) s : snd (iter objects s) = s.
Proof.
  unfold iter. destruct objects as [l|]; [|reflexivity].
  destruct (lists s !! l); reflexivity.
Qed.

(** X3: directories are skipped: over a list in which every entry ends
    in a slash (the empty list is one) the loop of [transfer_rec] calls
    no connector at all and leaves the state as it is. *)
Theorem directories_are_not_transferred self p entries s :
  Forall (fun entry => endswith entry "/" = true) entries ->
  transfer_entries self p entries s = (Ok tt, s).
Proof.
  unfold transfer_entries. intros Hdirs.
  induction Hdirs as [|entry entries Hdir _ IH]; [reflexivity|].
  simpl. rewrite Hdir. simpl. exact IH.
Qed.

(** X8: every connector call made by the loop of [transfer_rec] is a
    call of the transfer of one entry of the list that does not end in a
    slash, from and to the path of that entry under the URL: nothing else
    is read, written or deleted. *)
Theorem transfer_entries_calls_listed_objects self p entries s :
  exists made,
    calls (snd (transfer_entries self p entries s)) = (calls s ++ made)%list /\
    Forall (fun ev => exists entry,
              entry ∈ entries /\ endswith entry "/" = false /\
              concerns (PathObj (truediv p entry))
                (PathObj (truediv p entry)) ev) made.
Proof. apply transfer_entries_log. Qed.

(** X4: when the transfer of an entry fails, [transfer_rec] stops there:
    the exception of that transfer is raised as it is, the entries after
    it are not transferred and the hooks [after_get] and [after_push] are
    not called (the state is the one the failed transfer left). *)
Theorem transfer_rec_stops_at_failed_transfer self u objects s0 objs s1 ott s2
    earlier entry later s3 e s4 :
  objects_or_listing self u objects s0 = (Ok objs, s1) ->
  pre_processing self (Str u) objs s1 = (Ok ott, s2) ->
  iter objs s2 = (Ok (earlier ++ entry :: later)%list, s2) ->
  transfer_entries self (Path u) earlier s2 = (Ok tt, s3) ->
  endswith entry "/" = false ->
  transfer self (PathObj (truediv (Path u) entry))
    (PathObj (truediv (Path u) entry)) s3 = (Raise e, s4) ->
  transfer_rec self u objects s0 = (Raise e, s4).
Proof.
  intros Hobj Hpre Hiter Hdone Hfile Hfail.
  unfold transfer_rec, Py.bind at 1 2 3 4, Py.try_except at 1.
  rewrite Hobj, Hpre, Hiter.
  fold (transfer_entries self (Path u) (earlier ++ entry :: later)%list).
  unfold transfer_entries in *. rewrite for_each_app.
  unfold Py.bind at 1. rewrite Hdone. simpl.
  rewrite Hfile. simpl. unfold Py.bind at 1. rewrite Hfail. reflexivity.
Qed.

(** X5: [transfer_rec] asks the source for the list of its objects only
    when it is given no objects: with objects given, [get_object_list] is
    never called; with none given, an exception of [get_object_list] is
    raised as it is, not as a [DataTransferError], and nothing else is
    called. *)
Theorem transfer_rec_lists_only_when_asked self u s :
  (forall l, exists made,
     calls (snd (transfer_rec self u (Some l) s)) = (calls s ++ made)%list /\
     Forall (fun ev => is_listing ev = false) made) /\
  (forall e st,
     get_object_list (from_connector self) (Str u) (Store (world s) (lists s))
       = (Raise e, st) ->
     transfer_rec self u None s
     = (Raise e, {| world := store_world st; lists := store_lists st;
                    calls := calls s ++ [Call_get_object_list (Str u)] |})).
Proof.
  split.
  - intros l.
    unfold transfer_rec, Py.bind at 1, objects_or_listing, Py.ret.
    unfold Py.bind at 1, Py.try_except at 1.
    pose proof (pre_processing_log self (Str u) (Some l) s) as Hpre.
    destruct (pre_processing self (Str u) (Some l) s) as [[ott|e] s2];
      simpl in Hpre; [|exact Hpre].
    unfold Py.bind at 1.
    pose proof (iter_state (Some l) s2) as Hiter.
    destruct (iter (Some l) s2) as [[entries|e] s2']; simpl in Hiter;
      subst s2'; [|exact Hpre].
    unfold Py.bind at 1.
    fold (transfer_entries self (Path u) entries).
    pose proof (transfer_entries_log self (Path u) entries s2) as Hloop.
    apply (extends_impl _ not_listing) in Hloop.
    2:{ intros ev (en & _ & _ & Hc). exact (concerns_not_listing _ _ _ Hc). }
    pose proof (extends_trans _ _ _ _ Hpre Hloop) as Hto_loop.
    destruct (transfer_entries self (Path u) entries s2) as [[[]|e] s3];
      simpl in *; [|exact Hto_loop].
    unfold Py.bind at 1, Py.try_except at 1.
    pose proof (post_processing_log self (PathObj (Path u)) ott s3) as Hpost.
    pose proof (extends_trans _ _ _ _ Hto_loop Hpost) as Hall.
    destruct (post_processing self (PathObj (Path u)) ott s3) as [[r|e] s4];
      simpl in *; exact Hall.
  - intros e st Hlist.
    unfold transfer_rec, Py.bind at 1, objects_or_listing, call_hook.
    rewrite Hlist. reflexivity.
Qed.

End TransferRecCalls.

(** ** What a successful transfer guarantees *)

Section TransferGuarantees.

Context {W path : Type}.
Variable Path : string -> path.
Variable truediv : path -> string -> path.
Variable google_installed : bool.
Variable initial_hexdigest : string -> string.
Variable KNOWN_HASH_TYPES : list string.
Variable run_stages :
  BaseStorageConnector W path -> BaseStorageConnector W path ->
  url path -> url path -> Z -> W -> (futures * (string -> string)) * W.

Local Abbreviation transfer_pipeline :=
  (transfer_pipeline KNOWN_HASH_TYPES run_stages).
Local Abbreviation transfer_wrapped :=
  (transfer_wrapped initial_hexdigest KNOWN_HASH_TYPES run_stages).
Local Abbreviation transfer :=
  (transfer google_installed initial_hexdigest KNOWN_HASH_TYPES run_stages).
Local Abbreviation transfer_entries :=
  (transfer_entries truediv google_installed initial_hexdigest
     KNOWN_HASH_TYPES run_stages).
Local Abbreviation transfer_rec :=
  (transfer_rec Path truediv google_installed initial_hexdigest
     KNOWN_HASH_TYPES run_stages).

Implicit Types (self : Transfer W path) (s : state W path) (u : string).
Implicit Types (from_url to_url : url path).

(** The destination already holds the object: the two connectors have a
    download hash type in common and, for the first one, the same stored
    hash is read on both sides. *)
Local Abbreviation found_right_hash self from_url to_url s :=
  (exists hash_type rest h w1 w2,
     filter (fun e => e ∈ supported_download_hash (from_connector self))
       (supported_download_hash (to_connector self)) = hash_type :: rest /\
     get_hash (from_connector self) from_url hash_type (world s)
       = (Ok (Some h), w1) /\
     get_hash (to_connector self) to_url hash_type w1 = (Ok (Some h), w2)).

(** The object was transferred and verified: the three stages raised
    nothing, the stored native hashes of both sides equal the digests of
    the hasher, and the metadata was stored. *)
Local Abbreviation transferred_and_verified self from_url to_url s :=
  (exists dl dls ul uls s1 fs digests w1 w2 w3 w4,
     supported_download_hash (from_connector self) = dl :: dls /\
     supported_upload_hash (to_connector self) = ul :: uls /\
     has_right_hash self from_url to_url s = (Ok false, s1) /\
     run_stages (from_connector self) (to_connector self) from_url to_url
       8388608 (world s1) = (fs, digests, w1) /\
     any_exception fs = false /\
     get_hash (from_connector self) from_url dl w1
       = (Ok (Some (digests dl)), w2) /\
     get_hash (to_connector self) to_url ul w2
       = (Ok (Some (digests ul)), w3) /\
     set_hashes (to_connector self) to_url
       (computed_hashes KNOWN_HASH_TYPES
          {| chunk_size := 8388608; hexdigest := digests |}) w3
       = (Ok tt, w4)).

(** A call of the decorated function that returns normally returns what
    one of its attempts returned, after attempts that all failed with a
    transient error. *)
Lemma retry_loop_success {S A} (wrapped : Py.M S A) n :
  forall c (x0 : S) a (x' : S),
  retry_loop google_installed n c wrapped x0 = (Ok a, x') ->
  exists k x,
    (k < n)%nat /\
    after_failures google_installed wrapped k x0 = Some x /\
    wrapped x = (Ok a, x').
Proof.
  induction n as [|n IH]; intros c x0 a x' Hok.
  - simpl in Hok. destruct c; discriminate.
  - simpl in Hok. destruct (wrapped x0) as [[a0|err] x1] eqn:Hfirst.
    + exists 0%nat, x0. split; [lia|]. split; [reflexivity|].
      rewrite Hfirst. exact Hok.
    + destruct (isinstance err _) eqn:Herr; [|discriminate].
      destruct (IH _ _ _ _ Hok) as (k & x & Hk & Hfail & Hlast).
      exists (Datatypes.S k), x. split; [lia|]. split; [|exact Hlast].
      simpl. rewrite Hfirst. simpl. rewrite Herr. exact Hfail.
Qed.

Lemma transfer_pipeline_success self from_url to_url hasher dl ul s s' :
  transfer_pipeline self from_url to_url hasher dl ul s = (Ok tt, s') ->
  exists fs digests w1 w2 w3 w4,
    run_stages (from_connector self) (to_connector self) from_url to_url
      (chunk_size hasher) (world s) = (fs, digests, w1) /\
    any_exception fs = false /\
    get_hash (from_connector self) from_url dl w1
      = (Ok (Some (digests dl)), w2) /\
    get_hash (to_connector self) to_url ul w2
      = (Ok (Some (digests ul)), w3) /\
    set_hashes (to_connector self) to_url
      (computed_hashes KNOWN_HASH_TYPES
         {| chunk_size := chunk_size hasher; hexdigest := digests |}) w3
      = (Ok tt, w4).
Proof.
  unfold transfer_pipeline, Py.bind, submit_stages.
  destruct (run_stages _ _ _ _ _ _) as [[fs digests] w1] eqn:Hrun. simpl.
  destruct (any_exception fs) eqn:Hany.
  { unfold Py.suppress, Py.try_except, call, Py.bind, Py.raise, Py.ret. simpl.
    destruct (delete _ _ _) as [[[]|e] w2]; discriminate. }
  unfold call at 1. simpl.
  destruct (get_hash (from_connector self) _ _ _) as [[fh|e] w2] eqn:Hfrom;
    simpl; [|discriminate].
  unfold call at 1. simpl.
  destruct (get_hash (to_connector self) _ _ _) as [[th|e] w3] eqn:Hto;
    simpl; [|discriminate].
  destruct (bool_decide_reflect
              ((fh, th) = (Some (digests dl), Some (digests ul))))
    as [Heq | Hne]; simpl.
  - injection Heq as -> ->. unfold call. simpl.
    destruct (set_hashes _ _ _ _) as [[[]|e] w4] eqn:Hset; simpl;
      [|discriminate].
    intros _. exists fs, digests, w1, w2, w3, w4. auto.
  - unfold Py.suppress, Py.try_except, call, Py.bind, Py.raise, Py.ret. simpl.
    destruct (delete _ _ _) as [[[]|e] w4]; discriminate.
Qed.

Lemma transfer_wrapped_success self from_url to_url s s' :
  transfer_wrapped self from_url to_url s = (Ok tt, s') ->
  found_right_hash self from_url to_url s
  \/ transferred_and_verified self from_url to_url s.
Proof.
  intros Hok.
  destruct (supported_download_hash (from_connector self)) as [|dl dls] eqn:Edl.
  { unfold transfer_wrapped, Py.bind in Hok. rewrite Edl in Hok. discriminate. }
  destruct (supported_upload_hash (to_connector self)) as [|ul uls] eqn:Eul.
  { unfold transfer_wrapped, Py.bind in Hok. rewrite Edl, Eul in Hok.
    discriminate. }
  destruct (has_right_hash self from_url to_url s) as [[[]|e] s1] eqn:Hskip.
  - left. apply has_right_hash_true in Hskip
      as (hash_type & rest & h & w1 & w2 & Hc & Hf & Ht & _).
    exists hash_type, rest, h, w1, w2. rewrite <- Edl. auto.
  - right.
    rewrite (transfer_wrapped_pipeline _ _ _ _ _ _ _ _ _ _ _ _ Edl Eul Hskip)
      in Hok.
    apply transfer_pipeline_success in Hok
      as (fs & digests & w1 & w2 & w3 & w4 & Hrun & Hany & Hf & Ht & Hset).
    exists dl, dls, ul, uls, s1, fs, digests, w1, w2, w3, w4.
    rewrite <- Edl, <- Eul. simpl in *. auto 10.
  - unfold transfer_wrapped, Py.bind in Hok. rewrite Edl, Eul in Hok.
    simpl in Hok. rewrite Hskip in Hok. discriminate.
Qed.

(** X11: [transfer] returns normally only for an object that is known
    to be right at the destination.  Its last attempt, which may follow
    one or two attempts that failed with a transient error, either found
    the same stored hash on both sides, or ran the three stages without
    an exception, read stored native hashes on both sides that equal the
    digests of the hasher, and stored the metadata. *)
Theorem transfer_success_is_verified self from_url to_url s0 s' :
  transfer self from_url to_url s0 = (Ok tt, s') ->
  exists k s,
    (k <= 2)%nat /\
    after_failures google_installed (transfer_wrapped self from_url to_url)
      k s0 = Some s /\
    transfer_wrapped self from_url to_url s = (Ok tt, s') /\
    (found_right_hash self from_url to_url s
     \/ transferred_and_verified self from_url to_url s).
Proof.
  intros Hok.
  unfold transfer, retry_on_transfer_error, ERROR_MAX_RETRIES in Hok.
  apply retry_loop_success in Hok as (k & s & Hk & Hfail & Hlast).
  exists k, s. split; [lia|]. split; [exact Hfail|]. split; [exact Hlast|].
  apply (transfer_wrapped_success _ _ _ _ _ Hlast).
Qed.

(** X12: an exception of [get_hash] during the verification is raised
    by the attempt as it is, and the object that was just uploaded is
    left where it is: unlike a stage failure or a hash mismatch, this
    failure does not call [delete]. *)
Theorem verification_error_leaves_the_upload self from_url to_url s0
    dl dls ul uls s1 fs digests w1 :
  supported_download_hash (from_connector self) = dl :: dls ->
  supported_upload_hash (to_connector self) = ul :: uls ->
  has_right_hash self from_url to_url s0 = (Ok false, s1) ->
  run_stages (from_connector self) (to_connector self) from_url to_url
    8388608 (world s1) = (fs, digests, w1) ->
  any_exception fs = false ->
  let started :=
    [Submit_get from_url; Submit_compute 8388608; Submit_push to_url] in
  (forall e w2,
     get_hash (from_connector self) from_url dl w1 = (Raise e, w2) ->
     transfer_wrapped self from_url to_url s0
     = (Raise e,
        {| world := w2; lists := lists s1;
           calls := calls s1 ++ started
                      ++ [Call_get_hash from_side from_url dl] |})) /\
  (forall fh w2 e w3,
     get_hash (from_connector self) from_url dl w1 = (Ok fh, w2) ->
     get_hash (to_connector self) to_url ul w2 = (Raise e, w3) ->
     transfer_wrapped self from_url to_url s0
     = (Raise e,
        {| world := w3; lists := lists s1;
           calls := calls s1 ++ started
                      ++ [Call_get_hash from_side from_url dl;
                          Call_get_hash to_side to_url ul] |})).
Proof.
  intros Hdl Hul Hskip Hrun Hany started. split.
  - intros e w2 Hfrom.
    rewrite (transfer_wrapped_pipeline _ _ _ _ _ _ _ _ _ _ _ _ Hdl Hul Hskip).
    unfold transfer_pipeline, Py.bind, submit_stages. simpl.
    rewrite Hrun. simpl. rewrite Hany.
    unfold call at 1. simpl. rewrite Hfrom. simpl.
    rewrite <- app_assoc. reflexivity.
  - intros fh w2 e w3 Hfrom Hto.
    rewrite (transfer_wrapped_pipeline _ _ _ _ _ _ _ _ _ _ _ _ Hdl Hul Hskip).
    unfold transfer_pipeline, Py.bind, submit_stages. simpl.
    rewrite Hrun. simpl. rewrite Hany.
    unfold call at 1. simpl. rewrite Hfrom. simpl.
    unfold call at 1. simpl. rewrite Hto. simpl.
    rewrite <- !app_assoc. reflexivity.
Qed.

(** X10: with a source whose [before_get] returns the list it is given
    and a destination whose [after_push] does the same, a call of
    [transfer_rec] that returns normally returns [None]. *)
Theorem transfer_rec_returns_None_for_same_list self u objects s0 r s' :
  (forall o v st r' st',
     before_get (from_connector self) o v st = (Ok r', st') -> r' = o) ->
  (forall o v st r' st',
     after_push (to_connector self) o v st = (Ok r', st') -> r' = o) ->
  transfer_rec self u objects s0 = (Ok r, s') ->
  r = None.
Proof.
  intros Hbefore Hafter.
  unfold transfer_rec, Py.bind at 1.
  destruct (objects_or_listing self u objects s0) as [[objs|e] s1];
    [|discriminate].
  unfold Py.bind at 1, Py.try_except at 1.
  destruct (pre_processing self (Str u) objs s1) as [[ott|e] s2] eqn:Hpre;
    [|discriminate].
  assert (ott = objs) as ->.
  { unfold pre_processing, Py.bind, call_hook, Py.ret in Hpre.
    destruct (before_get _ _ _ _) as [[r1|e] st] eqn:Hbg; [|discriminate].
    apply Hbefore in Hbg. subst r1. simpl in Hpre.
    destruct (before_push _ _ _ _) as [[r2|e] st2]; [|discriminate].
    simpl in Hpre. congruence. }
  unfold Py.bind at 1.
  destruct (iter objs s2) as [[entries|e] s2']; [|discriminate].
  unfold Py.bind at 1.
  fold (transfer_entries self (Path u) entries).
  destruct (transfer_entries self (Path u) entries s2') as [[[]|e] s3];
    [|discriminate].
  unfold Py.bind at 1, Py.try_except at 1.
  destruct (post_processing self (PathObj (Path u)) objs s3)
    as [[stored|e] s4] eqn:Hpost; [|discriminate].
  assert (stored = objs) as ->.
  { unfold post_processing, Py.bind, call_hook, Py.ret in Hpost.
    destruct (after_get _ _ _ _) as [[r1|e] st]; [|discriminate].
    simpl in Hpost.
    destruct (after_push _ _ _ _) as [[r2|e] st2] eqn:Hap; [|discriminate].
    apply Hafter in Hap. subst r2. simpl in Hpost. congruence. }
  unfold Py.ret. rewrite bool_decide_eq_true_2 by reflexivity.
  intros [= <- _]. reflexivity.
Qed.

End TransferGuarantees.

(** ** An attempt and the call of [transfer] it belongs to *)

Section TransferAttempts.

Context {W path : Type}.
Variable google_installed : bool.
Variable initial_hexdigest : string -> string.
Variable KNOWN_HASH_TYPES : list string.
Variable run_stages :
  BaseStorageConnector W path -> BaseStorageConnector W path ->
  url path -> url path -> Z -> W -> (futures * (string -> string)) * W.

Local Abbreviation transfer_wrapped :=
  (transfer_wrapped initial_hexdigest KNOWN_HASH_TYPES run_stages).
Local Abbreviation transfer :=
  (transfer google_installed initial_hexdigest KNOWN_HASH_TYPES run_stages).

Implicit Types (self : Transfer W path) (s : state W path).
Implicit Types (from_url to_url : url path).

Local Abbreviation common_hash self :=
  (filter (fun e => e ∈ supported_download_hash (from_connector self))
     (supported_download_hash (to_connector self))).

Local Abbreviation submits from_url to_url chunk :=
  [Submit_get from_url; Submit_compute chunk; Submit_push to_url].

(** The attempts of [transfer] before the one that starts in [s]: at
    most two, all failed with a transient error. *)
Local Abbreviation attempt_of self from_url to_url s00 k s :=
  ((k <= 2)%nat /\
   after_failures google_installed (transfer_wrapped self from_url to_url)
     k s00 = Some s).

Lemma after_failures_snoc {S A} (wrapped : Py.M S A) k :
  forall (x0 x : S) r (x' : S),
  after_failures google_installed wrapped k x0 = Some x ->
  wrapped x = (r, x') ->
  transient_failure google_installed r = true ->
  after_failures google_installed wrapped (Datatypes.S k) x0 = Some x'.
Proof.
  induction k as [|k IH]; intros x0 x r x' Hk Hw Htr.
  - injection Hk as <-. simpl. rewrite Hw, Htr. reflexivity.
  - simpl in Hk. destruct (wrapped x0) as [r0 x1] eqn:Hfirst.
    destruct (transient_failure google_installed r0) eqn:Htr0; [|discriminate].
    pose proof (IH x1 x r x' Hk Hw Htr) as Hnext.
    change (after_failures google_installed wrapped
              (Datatypes.S (Datatypes.S k)) x0)
      with (let (r1, x2) := wrapped x0 in
            if transient_failure google_installed r1
            then after_failures google_installed wrapped (Datatypes.S k) x2
            else None).
    rewrite Hfirst, Htr0. exact Hnext.
Qed.

(** What becomes of an attempt that failed with a transient error: as
    the third attempt its error is raised to the caller; as the first or
    second another attempt follows, and the caller gets the result of that
    one if it is not a transient failure or if it is the third. *)
Lemma transient_attempt_outcome self from_url to_url s00 k s0 err failed :
  attempt_of self from_url to_url s00 k s0 ->
  transfer_wrapped self from_url to_url s0 = (Raise err, failed) ->
  isinstance err (transfer_exceptions google_installed) = true ->
  (k = 2%nat -> transfer self from_url to_url s00 = (Raise err, failed)) /\
  ((k < 2)%nat ->
   forall r s2,
     transfer_wrapped self from_url to_url failed = (r, s2) ->
     transient_failure google_installed r = false \/ k = 1%nat ->
     transfer self from_url to_url s00 = (r, s2)).
Proof.
  intros [Hk Hfail] Hattempt Herr. split.
  - intros ->. unfold transfer, retry_on_transfer_error, ERROR_MAX_RETRIES.
    apply (retry_loop_outcome google_installed _ 2 3%nat None s00 s0
             (Raise err) failed Hfail Hattempt); [lia | right; reflexivity].
  - intros Hlt r s2 Hnext Hcase.
    unfold transfer, retry_on_transfer_error, ERROR_MAX_RETRIES.
    apply (retry_loop_outcome google_installed _ (Datatypes.S k) 3%nat None
             s00 failed r s2); [|exact Hnext|lia|].
    + apply (after_failures_snoc _ k s00 s0 (Raise err) failed Hfail Hattempt).
      exact Herr.
    + destruct Hcase as [Hnt | ->]; [left; exact Hnt | right; reflexivity].
Qed.


(** C6 (as amended): in an attempt of [transfer] whose three stages
    raised nothing and whose two reads of the stored hashes answer, the
    stored hash of the source for its native download hash type and the
    one of the destination for its native upload hash type are compared
    with the digests of the hasher.  When each equals the digest, the
    attempt stores the metadata and ends as [set_hashes] does: it succeeds
    if and only if [set_hashes] returns normally, and that end, if it is
    not a transient failure, is the result of [transfer].  On a mismatch
    the destination object is deleted and the attempt raises
    [DataTransferError]; this error reaches the caller when the attempt
    was the third, and otherwise another attempt follows, whose result the
    caller gets if it is not a transient failure or if it is the third. *)
Theorem verification_decides_the_attempt self from_url to_url s00 k s0
    dl dls ul uls s1 fs digests w1 fh w2 th w3 :
  attempt_of self from_url to_url s00 k s0 ->
  supported_download_hash (from_connector self) = dl :: dls ->
  supported_upload_hash (to_connector self) = ul :: uls ->
  has_right_hash self from_url to_url s0 = (Ok false, s1) ->
  run_stages (from_connector self) (to_connector self) from_url to_url
    8388608 (world s1) = (fs, digests, w1) ->
  any_exception fs = false ->
  get_hash (from_connector self) from_url dl w1 = (Ok fh, w2) ->
  get_hash (to_connector self) to_url ul w2 = (Ok th, w3) ->
  let hashes :=
    computed_hashes KNOWN_HASH_TYPES
      {| chunk_size := 8388608; hexdigest := digests |} in
  let fetched :=
    (submits from_url to_url 8388608
       ++ [Call_get_hash from_side from_url dl;
           Call_get_hash to_side to_url ul])%list in
  let answer := set_hashes (to_connector self) to_url hashes w3 in
  let stored :=
    {| world := snd answer; lists := lists s1;
       calls := calls s1 ++ fetched ++ [Call_set_hashes to_url hashes] |} in
  let failed :=
    {| world := snd (delete (to_connector self) to_url w3);
       lists := lists s1;
       calls := calls s1 ++ fetched ++ [Call_delete to_url] |} in
  let mismatch := Exception DataTransferError "" in
  let equal := fh = Some (digests dl) /\ th = Some (digests ul) in
  (fst (transfer_wrapped self from_url to_url s0) = Ok tt
   <-> equal /\ fst answer = Ok tt) /\
  (equal ->
   transfer_wrapped self from_url to_url s0 = (fst answer, stored) /\
   (transient_failure google_installed (fst answer) = false ->
    transfer self from_url to_url s00 = (fst answer, stored))) /\
  (~ equal ->
   transfer_wrapped self from_url to_url s0 = (Raise mismatch, failed) /\
   (k = 2%nat ->
    transfer self from_url to_url s00 = (Raise mismatch, failed)) /\
   ((k < 2)%nat ->
    forall r s2,
      transfer_wrapped self from_url to_url failed = (r, s2) ->
      transient_failure google_installed r = false \/ k = 1%nat ->
      transfer self from_url to_url s00 = (r, s2))).
Proof.
  intros Hatt Hdl Hul Hskip Hrun Hany Hfrom Hto
    hashes fetched answer stored failed mismatch equal.
  assert (Hbody : transfer_wrapped self from_url to_url s0 =
    if bool_decide ((fh, th) = (Some (digests dl), Some (digests ul)))
    then (fst answer, stored) else (Raise mismatch, failed)).
  { rewrite (transfer_wrapped_pipeline _ _ _ _ _ _ _ _ _ _ _ _ Hdl Hul Hskip).
    rewrite (transfer_pipeline_verification KNOWN_HASH_TYPES run_stages
               self from_url to_url
               (new_StreamHasher initial_hexdigest 8388608) dl ul s1
               fs digests w1 fh w2 th w3 Hrun Hany Hfrom Hto).
    reflexivity. }
  destruct (bool_decide_reflect
              ((fh, th) = (Some (digests dl), Some (digests ul))))
    as [Heq | Hne].
  - assert (Hequal : equal) by (injection Heq as -> ->; split; reflexivity).
    split; [|split].
    + rewrite Hbody. simpl. split; [auto | intros [_ H]; exact H].
    + intros _. split; [exact Hbody|]. intros Hnt.
      destruct Hatt as [Hk Hfail].
      unfold transfer, retry_on_transfer_error, ERROR_MAX_RETRIES.
      apply (retry_loop_outcome google_installed _ k 3%nat None s00 s0
               (fst answer) stored Hfail Hbody); [lia | left; exact Hnt].
    + intros Hno. exfalso. exact (Hno Hequal).
  - assert (Hnot : ~ equal).
    { intros [-> ->]. apply Hne. reflexivity. }
    split; [|split].
    + rewrite Hbody. simpl. split; [discriminate|].
      intros [Hequal _]. exfalso. exact (Hnot Hequal).
    + intros Hequal. exfalso. exact (Hnot Hequal).
    + intros _. split; [exact Hbody|].
      apply (transient_attempt_outcome self from_url to_url s00 k s0
               mismatch failed Hatt Hbody).
      apply isinstance_DataTransferError.
Qed.

(** C7 (as amended): when one of the three stages raised in an attempt
    of [transfer], the attempt calls [delete] on the destination object,
    goes on whatever that call answers, and raises one
    [DataTransferError] whose message joins the messages of the stages
    that raised.  This error reaches the caller when the attempt was the
    third; otherwise another attempt follows, and the caller gets the
    result of that one if it is not a transient failure or if it is the
    third. *)
Theorem stage_failure_is_retried self from_url to_url s00 k s0
    dl dls ul uls s1 fs digests w1 :
  attempt_of self from_url to_url s00 k s0 ->
  supported_download_hash (from_connector self) = dl :: dls ->
  supported_upload_hash (to_connector self) = ul :: uls ->
  has_right_hash self from_url to_url s0 = (Ok false, s1) ->
  run_stages (from_connector self) (to_connector self) from_url to_url
    8388608 (world s1) = (fs, digests, w1) ->
  download_task fs <> None \/ hash_task fs <> None \/ upload_task fs <> None ->
  let ex := stage_exceptions fs in
  let aggregated :=
    Exception DataTransferError (String.concat newline2 (str <$> ex)) in
  let failed :=
    {| world := snd (delete (to_connector self) to_url w1);
       lists := lists s1;
       calls := calls s1 ++ submits from_url to_url 8388608
                  ++ [Call_delete to_url] |} in
  transfer_wrapped self from_url to_url s0 = (Raise aggregated, failed) /\
  (forall e, e ∈ ex <->
     download_task fs = Some e \/ hash_task fs = Some e
     \/ upload_task fs = Some e) /\
  (k = 2%nat ->
   transfer self from_url to_url s00 = (Raise aggregated, failed)) /\
  ((k < 2)%nat ->
   forall r s2,
     transfer_wrapped self from_url to_url failed = (r, s2) ->
     transient_failure google_installed r = false \/ k = 1%nat ->
     transfer self from_url to_url s00 = (r, s2)).
Proof.
  intros Hatt Hdl Hul Hskip Hrun Hraised ex aggregated failed.
  destruct (attempt_stage_failure initial_hexdigest KNOWN_HASH_TYPES
              run_stages self from_url to_url s0 dl dls ul uls s1
              fs digests w1 Hdl Hul Hskip Hrun Hraised) as [Hbody Hex].
  split; [exact Hbody|]. split; [exact Hex|].
  apply (transient_attempt_outcome self from_url to_url s00 k s0
           aggregated failed Hatt Hbody).
  apply isinstance_DataTransferError.
Qed.


End TransferAttempts.

(** ** More runs on the in-memory connectors *)

Section MoreRuns.

Import Memory.

(** The destination declares no hash type: [IndexError], and no call. *)
Lemma transfer_needs_native_hash_types_witness :
  Memory.transfer to_bare data_a data_a (initial 0 false)
  = (Raise (Exception IndexError "list index out of range"), initial 0 false).
Proof.
  apply (transfer_needs_native_hash_types true (digest "") KNOWN_HASH_TYPES
           run_stages to_bare data_a data_a (initial 0 false)).
  right. reflexivity.
Defined.

(** One read of the stored hash times out and the second attempt
    succeeds. *)
Lemma transfer_retries_by_class_witness :
  fst (Memory.transfer with_md5 data_a data_a (initial 1 false)) = Ok tt.
Proof.
  pose proof (transfer_retries_by_class true (digest "") KNOWN_HASH_TYPES
    run_stages with_md5 data_a data_a (initial 1 false)
    (Exception ReadTimeout "read timed out") _ eq_refl) as H.
  cbv zeta in H. destruct H as (Hretry & _ & _).
  unfold Memory.transfer. rewrite Hretry.
  - vm_compute. reflexivity.
  - simpl. rewrite !elem_of_cons. auto.
Defined.

(** Three directories, one of them the root: nothing is called. *)
Lemma directories_are_not_transferred_witness :
  transfer_entries truediv true (digest "") KNOWN_HASH_TYPES run_stages
    plain "data" ["sub/"; "deep/er/"; "/"] (initial 0 false)
  = (Ok tt, initial 0 false).
Proof.
  apply (directories_are_not_transferred truediv true (digest "")
           KNOWN_HASH_TYPES run_stages plain "data").
  repeat constructor.
Defined.

(** The second of three objects does not exist at the source: its
    transfer fails, after three attempts, and the third object is not
    transferred. *)
Lemma transfer_rec_stops_at_failed_transfer_witness :
  let out := Memory.transfer_rec plain "data" (Some 0%nat)
               (initial_with ["a"; "zz"; "b"]) in
  fst out
  = Raise (Exception DataTransferError
             ("no object data/zz" ++ newline2 ++ "nothing to push")) /\
  submitted_get (calls (snd out))
  = [PathObj "data/a"; PathObj "data/zz"; PathObj "data/zz";
     PathObj "data/zz"].
Proof.
  split; [|vm_compute; reflexivity].
  refine (f_equal fst
    (transfer_rec_stops_at_failed_transfer Path truediv true (digest "")
       KNOWN_HASH_TYPES run_stages plain "data" (Some 0%nat)
       (initial_with ["a"; "zz"; "b"]) (Some 0%nat) _ (Some 0%nat) _
       ["a"] "zz" ["b"] _ _ _ _ _ _ _ _ _)).
  - reflexivity.
  - reflexivity.
  - reflexivity.
  - vm_compute. reflexivity.
  - reflexivity.
  - vm_compute. reflexivity.
Defined.

(** A source that cannot list its objects: the error of the listing is
    what [transfer_rec] raises. *)
Example transfer_rec_raises_the_listing_error :
  fst (Memory.transfer_rec from_unlistable "data" None (initial 0 false))
  = Raise (Exception (OtherException "PermissionError") "cannot list").
Proof. vm_compute. reflexivity. Qed.

(** Two reads time out and the third attempt transfers and verifies
    the object. *)
Lemma transfer_success_is_verified_witness :
  exists k s,
    (k <= 2)%nat /\
    after_failures true (Memory.transfer_wrapped with_md5 data_a data_a)
      k (initial 2 false) = Some s /\
    fst (Memory.transfer_wrapped with_md5 data_a data_a s) = Ok tt.
Proof.
  destruct (transfer_success_is_verified true (digest "") KNOWN_HASH_TYPES
              run_stages with_md5 data_a data_a (initial 2 false)
              (snd (Memory.transfer with_md5 data_a data_a (initial 2 false))))
    as (k & s & Hk & Hfail & Hlast & _).
  - vm_compute. reflexivity.
  - exists k, s. split; [exact Hk|]. split; [exact Hfail|].
    unfold Memory.transfer_wrapped. rewrite Hlast. reflexivity.
Defined.

(** The bytes are uploaded and then the read of the stored hash of the
    source times out: the time-out is raised and nothing is deleted. *)
Lemma verification_error_leaves_the_upload_witness :
  let out := Memory.transfer_wrapped plain data_a data_a (initial 1 false) in
  fst out = Raise (Exception ReadTimeout "read timed out") /\
  deleted (calls (snd out)) = [] /\
  dest (world (snd out)) !! "data/a" = Some "aaaa".
Proof.
  pose proof (verification_error_leaves_the_upload (digest "")
    KNOWN_HASH_TYPES run_stages plain data_a data_a (initial 1 false)
    "md5" ["crc32c"] "crc32c" ["md5"] (initial 1 false) _ _ _
    eq_refl eq_refl eq_refl eq_refl eq_refl) as H.
  cbv zeta in H. destruct H as (Hfrom & _).
  unfold Memory.transfer_wrapped.
  erewrite Hfrom by (vm_compute; reflexivity).
  repeat split; vm_compute; reflexivity.
Defined.

(** Hooks that return the list they are given: the result is [None]. *)
Lemma transfer_rec_returns_None_for_same_list_witness :
  fst (Memory.transfer_rec plain "data" (Some 0%nat) (initial 0 false))
  = Ok None.
Proof.
  destruct (Memory.transfer_rec plain "data" (Some 0%nat) (initial 0 false))
    as [[r|e] s'] eqn:Hrun.
  - simpl. f_equal.
    apply (transfer_rec_returns_None_for_same_list Path truediv true
             (digest "") KNOWN_HASH_TYPES run_stages plain "data"
             (Some 0%nat) (initial 0 false) r s').
    + intros o v st r' st' H. simpl in H. unfold same_list in H. congruence.
    + intros o v st r' st' H. simpl in H. unfold same_list in H. congruence.
    + exact Hrun.
  - vm_compute in Hrun. discriminate.
Defined.

(** With metadata that cannot be written, both stored hashes equal the
    digests and nothing is deleted, and yet [transfer] fails.  With an upload that loses the
    bytes once, the first attempt finds a mismatch and deletes the
    destination object, and yet [transfer] succeeds: the second attempt
    transfers the object again. *)
Lemma verification_does_not_decide_the_transfer :
  let refused :=
    Memory.transfer to_read_only_metadata data_a data_a (initial 0 false) in
  let lossy_once := transfer_lossy_once plain data_a data_a in
  (fst refused
   = Raise (Exception (OtherException "PermissionError")
              "metadata is read-only") /\
   fst (get_hash (from_connector to_read_only_metadata) data_a "md5"
          (world (snd refused))) = Ok (Some (digest "aaaa" "md5")) /\
   fst (get_hash (to_connector to_read_only_metadata) data_a "crc32c"
          (world (snd refused))) = Ok (Some (digest "aaaa" "crc32c")) /\
   submitted_get (calls (snd refused)) = [data_a] /\
   deleted (calls (snd refused)) = []) /\
  (fst (attempt_lossy_once plain data_a data_a (initial 0 true))
   = Raise (Exception DataTransferError "") /\
   fst (lossy_once (initial 0 true)) = Ok tt /\
   submitted_get (calls (snd (lossy_once (initial 0 true))))
   = [data_a; data_a] /\
   deleted (calls (snd (lossy_once (initial 0 true)))) = [data_a]).
Proof. vm_compute. repeat split; reflexivity. Qed.

(** The download of the first attempt times out, the attempt deletes
    the destination object and raises the aggregated error, and the
    caller gets no error at all: the second attempt succeeds. *)
Lemma stage_failure_is_not_propagated :
  let out := transfer_timing_out plain data_a data_a (initial 1 false) in
  fst (attempt_timing_out plain data_a data_a (initial 1 false))
  = Raise (Exception DataTransferError "read timed out") /\
  fst out = Ok tt /\
  submitted_get (calls (snd out)) = [data_a; data_a] /\
  deleted (calls (snd out)) = [data_a].
Proof. vm_compute. repeat split; reflexivity. Qed.


(** The bytes arrive, both stored hashes equal the digests and the
    metadata is stored: the first attempt is the result. *)
Lemma verification_decides_the_attempt_witness :
  fst (Memory.transfer plain data_a data_a (initial 0 false)) = Ok tt.
Proof.
  pose proof (verification_decides_the_attempt true (digest "")
    KNOWN_HASH_TYPES run_stages plain data_a data_a (initial 0 false)
    0%nat (initial 0 false)
    "md5" ["crc32c"] "crc32c" ["md5"] (initial 0 false) _ _ _ _ _ _ _
    (conj (Nat.le_0_l 2) eq_refl)
    eq_refl eq_refl eq_refl eq_refl eq_refl eq_refl eq_refl) as H.
  cbv zeta in H. destruct H as (_ & Hequal & _).
  destruct Hequal as [_ Hresult]; [split; reflexivity|].
  unfold Memory.transfer. rewrite Hresult; reflexivity.
Defined.

(** The download of the first attempt times out and the second attempt
    succeeds. *)
Lemma stage_failure_is_retried_witness :
  fst (transfer_timing_out plain data_a data_a (initial 1 false)) = Ok tt.
Proof.
  pose proof (stage_failure_is_retried true (digest "")
    KNOWN_HASH_TYPES run_stages_timing_out plain data_a data_a
    (initial 1 false) 0%nat (initial 1 false)
    "md5" ["crc32c"] "crc32c" ["md5"] (initial 1 false) _ _ _
    (conj (Nat.le_0_l 2) eq_refl)
    eq_refl eq_refl eq_refl eq_refl) as H.
  cbv zeta in H. destruct H as (_ & _ & _ & Hnext).
  - left. discriminate.
  - unfold transfer_timing_out.
    erewrite Hnext; [reflexivity | lia | vm_compute; reflexivity
                    | left; reflexivity].
Defined.


End MoreRuns.
